(** * christians_tool: the dataset coordination layer of [app.py]

    A shallow embedding of the parts of [app.py] that read, change and
    persist the three patient datasets (samsa.csv, tes.csv, korttid.csv),
    together with the observer callbacks that [Data] fans out to and the
    constructors that read the files at start-up.

    Modelling boundary.
    - A csv file is its header and its lines of text fields; quoting and
      escaping of [to_csv]/[read_csv] are not modelled.
    - [read_csv] turns the empty field into NaN and [to_csv] writes NaN as
      the empty field.  The numeric dtype inference of pandas and its other
      NA tokens are not modelled: every other field is kept as text.
    - Strings are byte strings (UTF-8); [\d] is the ASCII digit class.
    - Exceptions are modelled: a raising call keeps every mutation done
      before the raise, as in Python.
    - Qt signal wiring (connect/disconnect, [cellChanged] emitted while a
      table is filled) is not modelled; each slot is a function of the
      arguments its lambda passes.
    - The iteration order of a Python set and [DataFrame.sort_values] are
      parameters of the handlers that use them. *)

From Stdlib Require Import String Ascii List Arith Bool Lia Permutation Sorted.
Import ListNotations.
Open Scope string_scope.
Open Scope list_scope.

Set Implicit Arguments.

(** ** Python strings *)

Module Py.

Definition LF : ascii := "010"%char.

(** [str.isdigit] restricted to ASCII: the class [\d]. *)
Definition is_digit (c : ascii) : bool :=
  let n := nat_of_ascii c in Nat.leb 48 n && Nat.leb n 57.

(** [s.replace(c, "")] for a one-character [c]. *)
Fixpoint remove_char (c : ascii) (s : string) : string :=
  match s with
  | EmptyString => EmptyString
  | String a r => if Ascii.eqb a c then remove_char c r
                  else String a (remove_char c r)
  end.

(** [s.split(sep=c)] for a one-character separator: never the empty list. *)
Fixpoint split (c : ascii) (s : string) : list string :=
  match s with
  | EmptyString => [EmptyString]
  | String a r =>
      if Ascii.eqb a c then EmptyString :: split c r
      else match split c r with
           | [] => [String a EmptyString]
           | w :: ws => String a w :: ws
           end
  end.

(** [s[0:n]]: slicing never raises. *)
Definition slice0 (n : nat) (s : string) : string := substring 0 n s.

Definition mem (x : string) (l : list string) : bool :=
  existsb (String.eqb x) l.

End Py.

(** ** The personal-number pattern

    [re.match(r'^\d{6}-\d{4}$', s)].  Without [re.MULTILINE], [^] matches at
    the start only and [$] matches at the end of the string and also just
    before a newline that is the last character. *)

Module Re.

(** [\d{n}]: consumes exactly [n] digits, returns the rest. *)
Fixpoint digits (n : nat) (s : string) : option string :=
  match n with
  | O => Some s
  | S n' =>
      match s with
      | String a r => if Py.is_digit a then digits n' r else None
      | EmptyString => None
      end
  end.

(** [$]. *)
Definition dollar (s : string) : bool :=
  match s with
  | EmptyString => true
  | String a EmptyString => Ascii.eqb a Py.LF
  | _ => false
  end.

Definition match_personal_nr (s : string) : bool :=
  match digits 6 s with
  | Some (String "-"%char r) =>
      match digits 4 r with
      | Some r' => dollar r'
      | None => false
      end
  | _ => false
  end.

End Re.

(** [ADDPatient.check_format_personal_nr] and
    [Display.check_format_personal_nr] (the two bodies are identical). *)
Definition check_format_personal_nr (input_string : string) : bool :=
  Re.match_personal_nr input_string.

(** What the specification calls the valid format: six digits, a hyphen,
    four digits and nothing else. *)
Definition all_digits (s : string) : bool :=
  forallb Py.is_digit (list_ascii_of_string s).

Definition exact_format (s : string) : Prop :=
  exists a b, s = (a ++ "-" ++ b)%string /\
    String.length a = 6 /\ String.length b = 4 /\
    all_digits a = true /\ all_digits b = true.

(** ** Exceptions and the state monad of the handlers *)

Inductive exn := ValueError | EmptyDataError | KeyError | IndexError | TypeError.

(** [pd.errors.EmptyDataError] is a subclass of [ValueError]. *)
Definition is_ValueError (e : exn) : bool :=
  match e with ValueError | EmptyDataError => true | _ => false end.

Definition is_EmptyDataError (e : exn) : bool :=
  match e with EmptyDataError => true | _ => false end.

Inductive result (A : Type) : Type :=
| Ok (a : A)
| Raise (e : exn).
Arguments Raise {A} e.

(** A computation over a state [S]: the state reached is returned also when
    an exception is raised. *)
Definition M (S A : Type) : Type := S -> result A * S.

Definition ret {S A} (a : A) : M S A := fun w => (Ok a, w).
Definition raise {S A} (e : exn) : M S A := fun w => (Raise e, w).
Definition lift {S A} (r : result A) : M S A := fun w => (r, w).

Definition bind {S A B} (m : M S A) (k : A -> M S B) : M S B :=
  fun w => match m w with
           | (Ok a, w') => k a w'
           | (Raise e, w') => (Raise e, w')
           end.

(** [try: m  except E: h], where [catches] says which exceptions [E] covers. *)
Definition try_except {S A} (m : M S A) (catches : exn -> bool) (h : M S A)
  : M S A :=
  fun w => match m w with
           | (Ok a, w') => (Ok a, w')
           | (Raise e, w') => if catches e then h w' else (Raise e, w')
           end.

Definition modify {S} (f : S -> S) : M S unit := fun w => (Ok tt, f w).
Definition gets {S A} (f : S -> A) : M S A := fun w => (Ok (f w), w).

Declare Scope py_scope.
Delimit Scope py_scope with py.
Notation "x <- m ;; k" := (bind m (fun x => k))
  (at level 61, m at next level, right associativity) : py_scope.
Notation "m ;; k" := (bind m (fun _ => k))
  (at level 61, right associativity) : py_scope.

(** ** pandas *)

Module Pd.

(** A value of an object column: a [str], or the float NaN. *)
Inductive cell := Str (s : string) | NaN.

Definition cell_eqb (a b : cell) : bool :=
  match a, b with
  | Str s, Str t => String.eqb s t
  | NaN, NaN => true
  | _, _ => false
  end.

(** [value == s] for a [str] [s]: NaN equals nothing. *)
Definition eq_str (c : cell) (s : string) : bool :=
  match c with Str t => String.eqb t s | NaN => false end.

(** [str(value)]. *)
Definition str (c : cell) : string :=
  match c with Str s => s | NaN => "nan" end.

(** A frame: the column labels and the rows, each with its index label. *)
Record DataFrame := mkDF {
  columns : list string;
  body : list (nat * list cell)
}.

(** The content of a csv file: nothing at all, or a header line and the
    record lines. *)
Inductive File :=
| EmptyFile
| Csv (header : list string) (lines : list (list string)).

Definition parse_field (s : string) : cell :=
  if String.eqb s "" then NaN else Str s.

Definition print_field (c : cell) : string :=
  match c with Str s => s | NaN => "" end.

Fixpoint enumerate {A} (k : nat) (l : list A) : list (nat * A) :=
  match l with
  | [] => []
  | x :: r => (k, x) :: enumerate (S k) r
  end.

(** [pd.read_csv(path)]: a file without any line raises [EmptyDataError];
    the rows get the index 0, 1, ... *)
Definition read_csv (f : File) : result DataFrame :=
  match f with
  | EmptyFile => Raise EmptyDataError
  | Csv h ls => Ok (mkDF h (enumerate 0 (map (map parse_field) ls)))
  end.

(** [df.to_csv(path, index=False)]: the index labels are not written. *)
Definition to_csv (df : DataFrame) : File :=
  Csv (columns df) (map (fun r => map print_field (snd r)) (body df)).

(** [df.shape[0]]. *)
Definition shape0 (df : DataFrame) : nat := length (body df).

Fixpoint col_pos (name : string) (cols : list string) : option nat :=
  match cols with
  | [] => None
  | c :: r => if String.eqb c name then Some 0
              else option_map S (col_pos name r)
  end.

(** [pd.DataFrame(values_dict, index=[k])] and
    [pd.DataFrame(data=[row], columns=cols)] (index 0): the second raises
    [ValueError] when the row and the columns differ in length. *)
Definition one_row (cols : list string) (k : nat) (vals : list cell)
  : DataFrame := mkDF cols [(k, vals)].

Definition from_data (vals : list cell) (cols : list string)
  : result DataFrame :=
  if Nat.eqb (length vals) (length cols) then Ok (one_row cols 0 vals)
  else Raise ValueError.

(** [pd.concat([a, b], axis=0)]: the columns are the union in order of
    first appearance, a cell of a column that a frame lacks is NaN. *)
Definition reindex_row (old new : list string) (cells : list cell)
  : list cell :=
  map (fun c => match col_pos c old with
                | Some k => nth k cells NaN
                | None => NaN
                end) new.

Definition concat (a b : DataFrame) : DataFrame :=
  let cols := columns a ++
              filter (fun c => negb (Py.mem c (columns a))) (columns b) in
  mkDF cols
    (map (fun r => (fst r, reindex_row (columns a) cols (snd r))) (body a) ++
     map (fun r => (fst r, reindex_row (columns b) cols (snd r))) (body b)).

(** [df[df[col] == s]]: [KeyError] when the column is missing. *)
Definition select_eq (df : DataFrame) (col s : string)
  : result (list (nat * list cell)) :=
  match col_pos col (columns df) with
  | None => Raise KeyError
  | Some k => Ok (filter (fun r => eq_str (nth k (snd r) NaN) s) (body df))
  end.

(** [rows.index.item()]: the label of the only row, else [ValueError]. *)
Definition index_item (rows : list (nat * list cell)) : result nat :=
  match rows with
  | [r] => Ok (fst r)
  | _ => Raise ValueError
  end.

(** [rows[col].item()]. *)
Definition column_item (cols : list string) (rows : list (nat * list cell))
  (col : string) : result cell :=
  match col_pos col cols with
  | None => Raise KeyError
  | Some k => match rows with
              | [r] => Ok (nth k (snd r) NaN)
              | _ => Raise ValueError
              end
  end.

(** [df[col].tolist()]. *)
Definition tolist (df : DataFrame) (col : string) : result (list cell) :=
  match col_pos col (columns df) with
  | None => Raise KeyError
  | Some k => Ok (map (fun r => nth k (snd r) NaN) (body df))
  end.

(** [df.at[i, col]] for a label that is in the index once (the frames of
    this program carry each label once). *)
Definition at_ (df : DataFrame) (i : nat) (col : string) : result cell :=
  match col_pos col (columns df) with
  | None => Raise KeyError
  | Some k =>
      match find (fun r => Nat.eqb (fst r) i) (body df) with
      | Some r => Ok (nth k (snd r) NaN)
      | None => Raise KeyError
      end
  end.

(** [df.drop(labels)]: every row with one of the labels goes (the labels
    passed by this program are taken from the frame's own index). *)
Definition drop (labels : list nat) (df : DataFrame) : DataFrame :=
  mkDF (columns df)
       (filter (fun r => negb (existsb (Nat.eqb (fst r)) labels)) (body df)).

(** [df.reset_index(drop=True)]. *)
Definition reset_index (df : DataFrame) : DataFrame :=
  mkDF (columns df) (enumerate 0 (map snd (body df))).

Fixpoint set_nth {A} (k : nat) (v : A) (l : list A) : list A :=
  match l, k with
  | [], _ => []
  | _ :: r, O => v :: r
  | x :: r, S k' => x :: set_nth k' v r
  end.

(** [df.at[i, col] = v]: a missing column is appended, NaN elsewhere. *)
Definition set_at (df : DataFrame) (i : nat) (col : string) (v : cell)
  : DataFrame :=
  match col_pos col (columns df) with
  | Some k =>
      mkDF (columns df)
           (map (fun r => if Nat.eqb (fst r) i
                          then (fst r, set_nth k v (snd r)) else r) (body df))
  | None =>
      mkDF (columns df ++ [col])
           (map (fun r => (fst r, snd r ++
                             [if Nat.eqb (fst r) i then v else NaN]))
                (body df))
  end.

(** [df.iat[row, column] = v] by position: [IndexError] out of range. *)
Definition set_iat (df : DataFrame) (row column : nat) (v : cell)
  : result DataFrame :=
  if Nat.ltb row (length (body df)) && Nat.ltb column (length (columns df))
  then Ok (mkDF (columns df)
             (map (fun p => if Nat.eqb (fst p) row
                            then (fst (snd p), set_nth column v (snd (snd p)))
                            else snd p)
                  (enumerate 0 (body df))))
  else Raise IndexError.

(** [f"{p[1]} {p[2]} {p[3]}"] for a row [p] of [df.itertuples()]. *)
Definition item_text (r : nat * list cell) : result string :=
  match snd r with
  | a :: b :: c :: _ => Ok (str a ++ " " ++ str b ++ " " ++ str c)%string
  | _ => Raise IndexError
  end.

Fixpoint item_texts (rows : list (nat * list cell)) : result (list string) :=
  match rows with
  | [] => Ok []
  | r :: rest =>
      match item_text r with
      | Raise e => Raise e
      | Ok t => match item_texts rest with
                | Raise e => Raise e
                | Ok ts => Ok (t :: ts)
                end
      end
  end.

(** [str(df.iloc[i, j])] for every cell. *)
Definition grid (df : DataFrame) : list (list string) :=
  map (fun r => map str (snd r)) (body df).

End Pd.

(** ** The shared store [data] and the widgets that observe it *)

(** The three datasets.  The source repeats every method once per dataset
    ([update_sd]/[update_td]/[update_kd], [save_to_samsa_csv]/..., the
    [case] arms of every slot); the model takes the dataset as an argument
    and keeps the string flags of the slots. *)
Inductive Category := SAMSA | TES | KORTTID.

Definition Category_eqb (a b : Category) : bool :=
  match a, b with
  | SAMSA, SAMSA | TES, TES | KORTTID, KORTTID => true
  | _, _ => false
  end.

Definition upd {A} (f : Category -> A) (c : Category) (v : A)
  : Category -> A :=
  fun c' => if Category_eqb c' c then v else f c'.

(** The observer methods that [Data] calls: [update_sd] ... of
    [DeletePatient], [update_sc] ... of [UpdateNote] and
    [update_samsa_table] ... of [Display]. *)
Inductive Callback :=
| Update_d (c : Category)
| Update_c (c : Category)
| Update_table (c : Category).

(** [UpdateSamsa.textbox]: what the user typed, or the feedback text
    "Removed: [...] / Added: [...]" (kept as its two lists). *)
Inductive Textbox :=
| Typed (s : string)
| Summary (removed added : list string).

Record World := mkWorld {
  files : Category -> Pd.File;             (* samsa.csv, tes.csv, korttid.csv *)
  frames : Category -> Pd.DataFrame;       (* data.samsa_df, tes_df, korttid_df *)
  patient_d : Category -> list string;     (* DeletePatient.patient_samsa ... *)
  patient_c : Category -> list string;     (* UpdateNote.patient1 ... *)
  note : Category -> string;               (* UpdateNote.note1 ... *)
  table : Category -> list (list string);  (* Display.samsa_table ... *)
  textbox : Textbox;                       (* UpdateSamsa.textbox *)
  calls : list Callback                    (* observer methods entered so far *)
}.

Definition set_file c v w :=
  mkWorld (upd (files w) c v) (frames w) (patient_d w) (patient_c w)
          (note w) (table w) (textbox w) (calls w).
Definition set_frame c v w :=
  mkWorld (files w) (upd (frames w) c v) (patient_d w) (patient_c w)
          (note w) (table w) (textbox w) (calls w).
Definition set_patient_d c v w :=
  mkWorld (files w) (frames w) (upd (patient_d w) c v) (patient_c w)
          (note w) (table w) (textbox w) (calls w).
Definition set_patient_c c v w :=
  mkWorld (files w) (frames w) (patient_d w) (upd (patient_c w) c v)
          (note w) (table w) (textbox w) (calls w).
Definition set_note c v w :=
  mkWorld (files w) (frames w) (patient_d w) (patient_c w)
          (upd (note w) c v) (table w) (textbox w) (calls w).
Definition set_table c v w :=
  mkWorld (files w) (frames w) (patient_d w) (patient_c w)
          (note w) (upd (table w) c v) (textbox w) (calls w).
Definition set_textbox v w :=
  mkWorld (files w) (frames w) (patient_d w) (patient_c w)
          (note w) (table w) v (calls w).
Definition enter (cb : Callback) w :=
  mkWorld (files w) (frames w) (patient_d w) (patient_c w)
          (note w) (table w) (textbox w) (calls w ++ [cb]).

Local Open Scope py_scope.

(** [self.data.x_df = pd.read_csv("x.csv")]. *)
Definition load (c : Category) : M World Pd.DataFrame :=
  df <- (fun w => (Pd.read_csv (files w c), w)) ;;
  modify (set_frame c df) ;;
  ret df.

(** [DeletePatient.update_sd], [update_td], [update_kd]. *)
Definition DeletePatient_update_d (c : Category) : M World unit :=
  modify (enter (Update_d c)) ;;
  df <- load c ;;
  modify (set_patient_d c []) ;;
  items <- lift (Pd.item_texts (Pd.body df)) ;;
  modify (set_patient_d c items).

(** [UpdateNote.update_sc], [update_tc], [update_kc].  After [clear] and
    [addItems] the current text of the combo box is its first item, and the
    empty string when there is none. *)
Definition UpdateNote_update_c (c : Category) : M World unit :=
  modify (enter (Update_c c)) ;;
  df <- load c ;;
  modify (set_patient_c c []) ;;
  items <- lift (Pd.item_texts (Pd.body df)) ;;
  modify (set_patient_c c items) ;;
  let personal_nr := Py.slice0 11 (hd "" items) in
  record <- lift (Pd.select_eq df "Personnummer" personal_nr) ;;
  value <- lift (Pd.column_item (Pd.columns df) record "Anteckning") ;;
  match value with
  | Pd.Str s => modify (set_note c s)
  | Pd.NaN => raise TypeError
  end.

(** [Display.update_samsa_table], [update_tes_table],
    [update_korttid_table]. *)
Definition Display_update_table (c : Category) : M World unit :=
  modify (enter (Update_table c)) ;;
  modify (set_table c []) ;;
  df <- load c ;;
  modify (set_table c (Pd.grid df)).

(** [Data.notify_sa_observer], [notify_te_observer], [notify_ko_observer]. *)
Definition Data_notify_observer (c : Category) : M World unit :=
  DeletePatient_update_d c ;;
  UpdateNote_update_c c ;;
  Display_update_table c.

(** [Data.when_change_has_been_made_directly_on_samsa_table] and its two
    siblings. *)
Definition Data_when_change_has_been_made_directly_on_table (c : Category)
  : M World unit :=
  DeletePatient_update_d c ;;
  UpdateNote_update_c c.

(** [Data.save_to_samsa_csv], [save_to_tes_csv], [save_to_korttid_csv]. *)
Definition Data_save_to_csv (c : Category) (skip_update : bool)
  : M World unit :=
  modify (fun w => set_file c (Pd.to_csv (frames w c)) w) ;;
  if skip_update
  then Data_when_change_has_been_made_directly_on_table c
  else Data_notify_observer c.

(** ** Window.create_files *)

Definition HEADER : list string :=
  ["Personnummer"; "Förnamn"; "Efternamn"; "Område"; "Inskriven"; "Typ";
   "Anteckning"].

(** One file of [Window.create_files]: [None] is a path that does not
    exist; an existing file is left alone. *)
Definition create_file (f : option Pd.File) : Pd.File :=
  match f with
  | None => Pd.to_csv (Pd.mkDF HEADER [])
  | Some f => f
  end.

Definition Window_create_files (disk : Category -> option Pd.File)
  : Category -> Pd.File :=
  fun c => create_file (disk c).

(** ** ADDPatient *)

Inductive Area := Centrum | Norrmalm | Osterlanggatan_4 | Margaretagatan_9.
Inductive Enrolled := Ja | Nej.

(** The item texts of [ADDPatient.populate_combos]. *)
Definition Area_text (a : Area) : string :=
  match a with
  | Centrum => "Centrum"
  | Norrmalm => "Norrmalm"
  | Osterlanggatan_4 => "Österlånggatan 4"
  | Margaretagatan_9 => "Margaretagatan 9"
  end.

Definition Enrolled_text (e : Enrolled) : string :=
  match e with Ja => "Ja" | Nej => "Nej" end.

Definition Category_text (c : Category) : string :=
  match c with SAMSA => "SAMSA" | TES => "TES" | KORTTID => "KORTTID" end.

(** The input widgets of the form; a combo box holds one of its items. *)
Record Form := mkForm {
  personal_nr : string;
  first : string;
  last : string;
  area : Area;
  enrolled : Enrolled;
  type_of_entry : Category;
  note_text : string
}.

(** The tuple [values], in the order of [header]. *)
Record Values := mkValues {
  Personnummer : string;
  Fornamn : string;
  Efternamn : string;
  Omrade : string;
  Inskriven : string;
  Typ : string;
  Anteckning : string
}.

Definition or_dash (s : string) : string :=
  if String.eqb s "" then "-" else s.

(** The tuple built by the lambda of [ADDPatient.connect_button]. *)
Definition ADDPatient_connect_button (f : Form) : Values :=
  mkValues (personal_nr f) (or_dash (first f)) (or_dash (last f))
           (Area_text (area f)) (Enrolled_text (enrolled f))
           (Category_text (type_of_entry f)) (or_dash (note_text f)).

(** [values_dict]: its keys are [HEADER], these are its values. *)
Definition values_dict (v : Values) : list Pd.cell :=
  map Pd.Str [Personnummer v; Fornamn v; Efternamn v; Omrade v; Inskriven v;
              Typ v; Anteckning v].

Definition case_Typ (t : string) : option Category :=
  if String.eqb t "SAMSA" then Some SAMSA
  else if String.eqb t "TES" then Some TES
  else if String.eqb t "KORTTID" then Some KORTTID
  else None.

(** [ADDPatient.button_clicked]; [reset_inputs] only clears the form. *)
Definition ADDPatient_button_clicked (values : Values) : M World unit :=
  if check_format_personal_nr (Personnummer values) then
    match case_Typ (Typ values) with
    | Some c =>
        try_except
          (df <- load c ;;
           let new_row := Pd.one_row HEADER (Pd.shape0 df) (values_dict values) in
           modify (set_frame c (Pd.concat df new_row)) ;;
           Data_save_to_csv c false)
          is_EmptyDataError
          (modify (set_frame c (Pd.one_row HEADER 0 (values_dict values))) ;;
           Data_save_to_csv c false)
    | None => ret tt
    end
  else ret tt.

(** ** DeletePatient *)

Definition case_delete_flag (flag : string) : option Category :=
  if String.eqb flag "s" then Some SAMSA
  else if String.eqb flag "t" then Some TES
  else if String.eqb flag "k" then Some KORTTID
  else None.

(** [DeletePatient.button_clicked]. *)
Definition DeletePatient_button_clicked (text flag : string) : M World unit :=
  let personal_nr := hd "" (Py.split " " text) in
  match case_delete_flag flag with
  | Some c =>
      try_except
        (df <- gets (fun w => frames w c) ;;
         rows <- lift (Pd.select_eq df "Personnummer" personal_nr) ;;
         row_to_drop <- lift (Pd.index_item rows) ;;
         modify (set_frame c (Pd.drop [row_to_drop] df)) ;;
         Data_save_to_csv c false)
        is_ValueError
        (ret tt)
  | None => ret tt
  end.

(** ** UpdateNote *)

Definition case_note_flag (flag : string) : option Category :=
  if String.eqb flag "sa" then Some SAMSA
  else if String.eqb flag "te" then Some TES
  else if String.eqb flag "ko" then Some KORTTID
  else None.

(** [UpdateNote.button_clicked]; [values] is the pair (combo text, note). *)
Definition UpdateNote_button_clicked (values : string * string)
  (flag : string) : M World unit :=
  match case_note_flag flag with
  | Some c =>
      try_except
        (df <- gets (fun w => frames w c) ;;
         record <- lift (Pd.select_eq df "Personnummer"
                           (Py.slice0 11 (fst values))) ;;
         record_index <- lift (Pd.index_item record) ;;
         modify (set_frame c (Pd.set_at df record_index "Anteckning"
                                (Pd.Str (or_dash (snd values))))) ;;
         Data_save_to_csv c false)
        is_ValueError
        (ret tt)
  | None => ret tt
  end.

(** ** Display: the editable grid *)

(** [Display.check_if_valid] on the text of the item: [None] is the
    Python [None] returned when no [case] matches. *)
Definition Display_check_if_valid (column : nat) (text : string)
  : option bool :=
  match column with
  | 0 => Some (check_format_personal_nr text)
  | 3 => Some (Py.mem text ["Centrum"; "Norrmalm"; "Österlånggatan 4";
                            "Margaretagatan 9"])
  | 4 => Some (Py.mem text ["Ja"; "Nej"])
  | 1 | 2 | 6 => Some (negb (String.eqb text ""))
  | _ => None
  end.

(** Truth value of the result in [if not ...]. *)
Definition truthy (r : option bool) : bool :=
  match r with Some true => true | _ => false end.

Definition case_table_flag (t : string) : option Category :=
  if String.eqb t "S" then Some SAMSA
  else if String.eqb t "T" then Some TES
  else if String.eqb t "K" then Some KORTTID
  else None.

(** [Display.cell_changed]; [text] is [item.text()]. *)
Definition Display_cell_changed (row column : nat) (text t : string)
  : M World unit :=
  if negb (truthy (Display_check_if_valid column text)) then ret tt
  else
    match case_table_flag t with
    | Some c =>
        df <- gets (fun w => frames w c) ;;
        df' <- lift (Pd.set_iat df row column (Pd.Str text)) ;;
        modify (set_frame c df') ;;
        Data_save_to_csv c true
    | None => ret tt
    end.

(** [for x in l: f(x)]. *)
Fixpoint for_each {S A} (l : list A) (f : A -> M S unit) : M S unit :=
  match l with
  | [] => ret tt
  | x :: r => f x ;; for_each r f
  end.

(** ** UpdateSamsa: the bulk update of the SAMSA dataset *)

Definition cell_mem (x : Pd.cell) (l : list Pd.cell) : bool :=
  existsb (Pd.cell_eqb x) l.

(** The distinct elements of a list, in order of first occurrence. *)
Fixpoint dedup (l : list Pd.cell) : list Pd.cell :=
  match l with
  | [] => []
  | x :: r => x :: filter (fun y => negb (Pd.cell_eqb y x)) (dedup r)
  end.

(** [[i for i in df.index if df.at[i, "Personnummer"] in discharged]]. *)
Fixpoint select_labels (df : Pd.DataFrame) (discharged : list Pd.cell)
  (labels : list nat) : result (list nat) :=
  match labels with
  | [] => Ok []
  | i :: r =>
      match Pd.at_ df i "Personnummer" with
      | Raise e => Raise e
      | Ok v =>
          match select_labels df discharged r with
          | Raise e => Raise e
          | Ok ks => Ok (if cell_mem v discharged then i :: ks else ks)
          end
      end
  end.

Definition placeholder (item : Pd.cell) : list Pd.cell :=
  [item; Pd.Str "-"; Pd.Str "-"; Pd.Str "-"; Pd.Str "-"; Pd.Str "-";
   Pd.Str "-"].

Section UpdateSamsa.

(** The order in which a Python set yields its elements is not fixed by the
    language; [set_order] stands for it: it takes the distinct elements and
    returns them in iteration order. *)
Variable set_order : list Pd.cell -> list Pd.cell.

(** [set(a).difference(set(b))], as the list it iterates to. *)
Definition set_difference (a b : list Pd.cell) : list Pd.cell :=
  set_order (filter (fun x => negb (cell_mem x b)) (dedup a)).

(** [UpdateSamsa.button_clicked]; [text] is [textbox.toPlainText()]. *)
Definition UpdateSamsa_button_clicked (text : string) : M World unit :=
  let values := Py.split "," (Py.remove_char " " text) in
  let is_correct_format := forallb Re.match_personal_nr values in
  if is_correct_format then
    df <- gets (fun w => frames w SAMSA) ;;
    list_of_personal_numbers <- lift (Pd.tolist df "Personnummer") ;;
    let discharged :=
      set_difference list_of_personal_numbers (map Pd.Str values) in
    indexes <- lift (select_labels df discharged (map fst (Pd.body df))) ;;
    modify (set_frame SAMSA (Pd.reset_index (Pd.drop indexes df))) ;;
    Data_save_to_csv SAMSA false ;;
    let new := set_difference (map Pd.Str values) list_of_personal_numbers in
    df <- load SAMSA ;;
    let columns := Pd.columns df in
    for_each new (fun item =>
      new_entry <- lift (Pd.from_data (placeholder item) columns) ;;
      modify (fun w => set_frame SAMSA (Pd.concat (frames w SAMSA) new_entry) w)) ;;
    Data_save_to_csv SAMSA false ;;
    modify (set_textbox (Typed "")) ;;
    modify (set_textbox (Summary (map Pd.str discharged) (map Pd.str new)))
  else ret tt.

End UpdateSamsa.

(** ** Display: the sort buttons *)

Definition case_sort_flag (flag2 : string) : option (list string) :=
  if String.eqb flag2 "first" then Some ["Förnamn"]
  else if String.eqb flag2 "last" then Some ["Efternamn"]
  else if String.eqb flag2 "area" then Some ["Område"]
  else if String.eqb flag2 "enrolled" then Some ["Inskriven"; "Område"]
  else None.

(** A table of [n] rows filled from a grid: [setItem] outside the row count
    does nothing, a row that is not filled stays empty. *)
Definition fill_rows (n : nat) (g : list (list string)) : list (list string) :=
  map (fun i => nth i g []) (seq 0 n).

Section Sort.

(** [DataFrame.sort_values(by)] with the default [kind]; pandas is not part
    of the repository, so the function is a parameter. *)
Variable sort_values : list string -> Pd.DataFrame -> Pd.DataFrame.

(** [Display.button_clicked]. *)
Definition Display_button_clicked (flag1 flag2 : string) : M World unit :=
  match case_table_flag flag1 with
  | Some c =>
      n <- gets (fun w => Pd.shape0 (frames w c)) ;;
      modify (set_table c (fill_rows n [])) ;;
      match case_sort_flag flag2 with
      | Some by_ =>
          df <- (fun w => (Pd.read_csv (files w c), w)) ;;
          modify (set_frame c (sort_values by_ df)) ;;
          modify (set_table c (fill_rows n (Pd.grid (sort_values by_ df))))
      | None => ret tt
      end
  | None => ret tt
  end.

End Sort.

(** ** Predicates used by the statements *)

(** A stored file in the shape [Window.create_files] gives it: the seven
    column names, and seven fields on every line. *)
Definition seven_columns (f : Pd.File) : Prop :=
  match f with
  | Pd.EmptyFile => True
  | Pd.Csv h ls => h = HEADER /\ Forall (fun l => length l = 7) ls
  end.

Definition wf_frame (d : Pd.DataFrame) : Prop :=
  Pd.columns d = HEADER /\ Forall (fun r => length (snd r) = 7) (Pd.body d).

Definition wf_world (w : World) : Prop :=
  forall c, seven_columns (files w c) /\ wf_frame (frames w c).

(** The six display columns of the specification. *)
Definition DISPLAY_COLUMNS : list string :=
  ["Personnummer"; "Förnamn"; "Efternamn"; "Område"; "Inskriven";
   "Anteckning"].

(** The mutating operations of the store, as the slots that perform them. *)
Inductive Operation :=
| Append (f : Form)
| Delete (text flag : string)
| Edit_note (values : string * string) (flag : string)
| Edit_cell (row column : nat) (text t : string)
| Reconcile (text : string).

Definition perform (set_order : list Pd.cell -> list Pd.cell)
  (o : Operation) : M World unit :=
  match o with
  | Append f => ADDPatient_button_clicked (ADDPatient_connect_button f)
  | Delete text flag => DeletePatient_button_clicked text flag
  | Edit_note values flag => UpdateNote_button_clicked values flag
  | Edit_cell row column text t => Display_cell_changed row column text t
  | Reconcile text => UpdateSamsa_button_clicked set_order text
  end.

(** The rows of a frame whose personal number is [i]. *)
Definition records_of (d : Pd.DataFrame) (i : string)
  : list (nat * list Pd.cell) :=
  filter (fun r => Pd.eq_str (nth 0 (snd r) Pd.NaN) i) (Pd.body d).

(** ** Example states *)

Definition example_line (i f : string) : list string :=
  [i; f; "-"; "Centrum"; "Ja"; "SAMSA"; "-"].

Definition frame_of (f : Pd.File) : Pd.DataFrame :=
  match Pd.read_csv f with
  | Ok d => d
  | Raise _ => Pd.mkDF [] []
  end.

(** The state right after start-up on the given files: every widget has
    read its file. *)
Definition world_of (fs : Category -> Pd.File) : World :=
  mkWorld fs (fun c => frame_of (fs c))
          (fun c => match Pd.item_texts (Pd.body (frame_of (fs c))) with
                    | Ok l => l | Raise _ => [] end)
          (fun c => match Pd.item_texts (Pd.body (frame_of (fs c))) with
                    | Ok l => l | Raise _ => [] end)
          (fun _ => "") (fun c => Pd.grid (frame_of (fs c))) (Typed "") [].

Definition samsa_only (ls : list (list string)) : Category -> Pd.File :=
  fun c => match c with
           | SAMSA => Pd.Csv HEADER ls
           | _ => Pd.Csv HEADER []
           end.

(** SAMSA holds one patient. *)
Definition world_one : World :=
  world_of (samsa_only [example_line "010101-1234" "Anna"]).

(** SAMSA holds two patients. *)
Definition world_two : World :=
  world_of (samsa_only [example_line "010101-1234" "Anna";
                        example_line "020202-2345" "Bo"]).

(** All three datasets are as [Window.create_files] leaves them. *)
Definition world_fresh : World :=
  world_of (Window_create_files (fun _ => None)).

(** The user types [s] into [UpdateSamsa.textbox]. *)
Definition typing (s : string) (w : World) : World := set_textbox (Typed s) w.

(** A form with only the personal number filled in, SAMSA selected. *)
Definition form_new : Form :=
  mkForm "010101-1234" "" "" Centrum Ja SAMSA "".

(** The shape the specification gives the stored file: the six display
    columns and six fields on every line. *)
Definition six_display_columns (f : Pd.File) : Prop :=
  match f with
  | Pd.EmptyFile => True
  | Pd.Csv h ls => h = DISPLAY_COLUMNS /\ Forall (fun l => length l = 6) ls
  end.

(** The frame of [c] has no row with personal number [i], and neither has
    the file it was last saved to. *)
Definition gone (c : Category) (i : string) (w : World) : Prop :=
  Pd.select_eq (frames w c) "Personnummer" i = Ok [] /\
  exists d, Pd.select_eq d "Personnummer" i = Ok [] /\
            files w c = Pd.to_csv d.

(** ** A program logic for the handlers *)

(** [hoare P m Q E]: from a state in [P], [m] ends in [Q] when it returns
    and in [E] when it raises. *)
Definition hoare {A} (P : World -> Prop) (m : M World A)
  (Q : A -> World -> Prop) (E : exn -> World -> Prop) : Prop :=
  forall w, P w ->
    match m w with
    | (Ok a, w') => Q a w'
    | (Raise e, w') => E e w'
    end.

(** An invariant that the observer methods of dataset [c] keep: they only
    log, load the frame of [c] from its file and fill their widgets. *)
Record stable (c : Category) (I : World -> Prop) : Prop := mkStable {
  st_enter : forall cb w, I w -> I (enter cb w);
  st_load : forall df w,
      I w -> Pd.read_csv (files w c) = Ok df -> I (set_frame c df w);
  st_patient_d : forall v w, I w -> I (set_patient_d c v w);
  st_patient_c : forall v w, I w -> I (set_patient_c c v w);
  st_note : forall v w, I w -> I (set_note c v w);
  st_table : forall v w, I w -> I (set_table c v w)
}.

(** What an observer method of [c] leaves when it raises: the invariant
    holds, and [EmptyDataError] comes only from an empty file. *)
Definition observer_exn (c : Category) (I : World -> Prop)
  (e : exn) (w : World) : Prop :=
  I w /\ (e = EmptyDataError -> files w c = Pd.EmptyFile).

(** ** Sorting a frame *)

(** The order of an object column: strings by code point, NaN last. *)
Definition cell_leb (a b : Pd.cell) : bool :=
  match a, b with
  | Pd.Str s, Pd.Str t => String.leb s t
  | _, Pd.NaN => true
  | Pd.NaN, Pd.Str _ => false
  end.

Definition row_leb (k : nat) (r r' : nat * list Pd.cell) : bool :=
  cell_leb (nth k (snd r) Pd.NaN) (nth k (snd r') Pd.NaN).

Definition row_le (k : nat) (r r' : nat * list Pd.cell) : Prop :=
  row_leb k r r' = true.

(** What [sort_values(col)] with the default [kind] is documented to
    return: the rows of the frame in ascending order of the column.  The
    order of rows with equal values is not part of it (the documentation
    names only the kinds mergesort and stable as stable). *)
Definition sorts_by_column
  (sort_values : list string -> Pd.DataFrame -> Pd.DataFrame) : Prop :=
  forall col df k,
    Pd.col_pos col (Pd.columns df) = Some k ->
    Pd.columns (sort_values [col] df) = Pd.columns df /\
    Permutation (Pd.body (sort_values [col] df)) (Pd.body df) /\
    Sorted (row_le k) (Pd.body (sort_values [col] df)).

(** Two sorts by insertion: the first puts a row before the rows with an
    equal value, the second after them. *)
Fixpoint insert_first (k : nat) (x : nat * list Pd.cell)
  (l : list (nat * list Pd.cell)) : list (nat * list Pd.cell) :=
  match l with
  | [] => [x]
  | y :: r => if row_leb k x y then x :: y :: r else y :: insert_first k x r
  end.

Fixpoint insert_last (k : nat) (x : nat * list Pd.cell)
  (l : list (nat * list Pd.cell)) : list (nat * list Pd.cell) :=
  match l with
  | [] => [x]
  | y :: r => if row_leb k y x then y :: insert_last k x r else x :: y :: r
  end.

Definition sort_with
  (ins : nat -> nat * list Pd.cell -> list (nat * list Pd.cell) ->
         list (nat * list Pd.cell))
  (by_ : list string) (df : Pd.DataFrame) : Pd.DataFrame :=
  match by_ with
  | [col] =>
      match Pd.col_pos col (Pd.columns df) with
      | Some k => Pd.mkDF (Pd.columns df) (fold_right (ins k) [] (Pd.body df))
      | None => df
      end
  | _ => df
  end.

(** Ties stay in the order read. *)
Definition sort_values_keeping_ties := sort_with insert_first.

(** Ties come out in the reverse of the order read. *)
Definition sort_values_reversing_ties := sort_with insert_last.

(** SAMSA holds two patients with the same first name. *)
Definition world_ties : World :=
  world_of (samsa_only [example_line "010101-1234" "Anna";
                        example_line "020202-2345" "Anna"]).

(** [x] comes before [y] in [l]. *)
Definition precedes {A} (x y : A) (l : list A) : Prop :=
  exists l1 l2 l3, l = l1 ++ x :: l2 ++ y :: l3.

(** Stability on column [k]: two rows with the same value keep the
    relative order they were read in. *)
Definition ties_keep_read_order (k : nat)
  (read sorted : list (nat * list Pd.cell)) : Prop :=
  forall r r',
    nth k (snd r) Pd.NaN = nth k (snd r') Pd.NaN ->
    precedes r r' read -> precedes r r' sorted.

(** What is left of a list after the first [x]. *)
Fixpoint after_first (x : nat) (l : list nat) : list nat :=
  match l with
  | [] => []
  | a :: r => if Nat.eqb a x then r else after_first x r
  end.

(** SAMSA holds eighteen patients without a first name, as a bulk update
    adds them. *)
Definition placeholder_line (i : string) : list string :=
  [i; "-"; "-"; "-"; "-"; "-"; "-"].

Definition world_placeholders : World :=
  world_of (samsa_only (map placeholder_line
    ["010101-1001"; "010101-1002"; "010101-1003"; "010101-1004";
     "010101-1005"; "010101-1006"; "010101-1007"; "010101-1008";
     "010101-1009"; "010101-1010"; "010101-1011"; "010101-1012";
     "010101-1013"; "010101-1014"; "010101-1015"; "010101-1016";
     "010101-1017"; "010101-1018"])).

(** ** Start-up: the constructors that read the files *)

(** [QComboBox.addItems] appends to the items the box already has. *)
Definition add_items_d (c : Category) (items : list string) (w : World) :=
  set_patient_d c (patient_d w c ++ items) w.

Definition add_items_c (c : Category) (items : list string) (w : World) :=
  set_patient_c c (patient_c w c ++ items) w.

(** [DeletePatient.populate_combos]: the three files are read first, then
    the three boxes are filled; [EmptyDataError] ends it silently. *)
Definition DeletePatient_populate_combos : M World unit :=
  try_except
    (samsa <- load SAMSA ;;
     tes <- load TES ;;
     korttid <- load KORTTID ;;
     items <- lift (Pd.item_texts (Pd.body samsa)) ;;
     modify (add_items_d SAMSA items) ;;
     items <- lift (Pd.item_texts (Pd.body tes)) ;;
     modify (add_items_d TES items) ;;
     items <- lift (Pd.item_texts (Pd.body korttid)) ;;
     modify (add_items_d KORTTID items))
    is_EmptyDataError
    (ret tt).

(** [UpdateNote.add_items_to_combos]: the same reads, without a handler. *)
Definition UpdateNote_add_items_to_combos : M World unit :=
  samsa <- load SAMSA ;;
  tes <- load TES ;;
  korttid <- load KORTTID ;;
  items <- lift (Pd.item_texts (Pd.body samsa)) ;;
  modify (add_items_c SAMSA items) ;;
  items <- lift (Pd.item_texts (Pd.body tes)) ;;
  modify (add_items_c TES items) ;;
  items <- lift (Pd.item_texts (Pd.body korttid)) ;;
  modify (add_items_c KORTTID items).

Definition is_KeyError (e : exn) : bool :=
  match e with KeyError => true | _ => false end.

(** One of the three blocks of [UpdateNote.set_default_values]: the note
    of the row with index label 0 among the rows of the patient shown in
    the box; the text is set only when the value is a [str]. *)
Definition default_note (c : Category) : M World unit :=
  w <- gets (fun w => w) ;;
  let active_personal_nr := Py.slice0 11 (hd "" (patient_c w c)) in
  active <- lift (Pd.select_eq (frames w c) "Personnummer"
                    active_personal_nr) ;;
  default_value_note <-
    lift (Pd.at_ (Pd.mkDF (Pd.columns (frames w c)) active) 0 "Anteckning") ;;
  match default_value_note with
  | Pd.Str s => modify (set_note c s)
  | Pd.NaN => ret tt
  end.

(** [UpdateNote.set_default_values]: one [try] around the three blocks. *)
Definition UpdateNote_set_default_values : M World unit :=
  try_except
    (default_note SAMSA ;; default_note TES ;; default_note KORTTID)
    is_KeyError
    (ret tt).

(** [record.iloc[0][col]]: [IndexError] when there is no row. *)
Definition iloc0_column (cols : list string) (rows : list (nat * list Pd.cell))
  (col : string) : result Pd.cell :=
  match rows with
  | [] => Raise IndexError
  | r :: _ =>
      match Pd.col_pos col cols with
      | Some k => Ok (nth k (snd r) Pd.NaN)
      | None => Raise KeyError
      end
  end.

Definition case_index_flag (flag : nat) : option Category :=
  match flag with
  | 0 => Some SAMSA
  | 1 => Some TES
  | 2 => Some KORTTID
  | _ => None
  end.

(** [UpdateNote.current_index_changed]. *)
Definition UpdateNote_current_index_changed (text : string) (flag : nat)
  : M World unit :=
  let personal_nr := Py.slice0 11 text in
  match case_index_flag flag with
  | Some c =>
      df <- gets (fun w => frames w c) ;;
      record <- lift (Pd.select_eq df "Personnummer" personal_nr) ;;
      note_ <- lift (iloc0_column (Pd.columns df) record "Anteckning") ;;
      match note_ with
      | Pd.Str s => modify (set_note c s)
      | Pd.NaN => raise TypeError
      end
  | None => ret tt
  end.

(** [Display.create_table]: the cells of the frame as texts. *)
Definition Display_create_table (df : Pd.DataFrame) : list (list string) :=
  Pd.grid df.

(** The three [create_table] calls of [Display.__init__]. *)
Definition Display_init : M World unit :=
  modify (fun w => set_table SAMSA (Display_create_table (frames w SAMSA)) w) ;;
  modify (fun w => set_table TES (Display_create_table (frames w TES)) w) ;;
  modify (fun w => set_table KORTTID (Display_create_table (frames w KORTTID)) w).

(** The state in which the widgets are constructed: nothing is read yet
    (the frames are [None] in the source; no frame is used before it is
    read, the empty frame stands for it). *)
Definition world_init (fs : Category -> Pd.File) : World :=
  mkWorld fs (fun _ => Pd.mkDF [] []) (fun _ => []) (fun _ => [])
          (fun _ => "") (fun _ => []) (Typed "") [].

(** [Window.__init__]: [create_files], then [Manage()] builds the delete
    view and the note view, then [Display()] builds the three tables. *)
Definition Window_init (disk : Category -> option Pd.File)
  : result unit * World :=
  (DeletePatient_populate_combos ;;
   UpdateNote_add_items_to_combos ;;
   UpdateNote_set_default_values ;;
   Display_init) (world_init (Window_create_files disk)).

(** ** Invariants of whole handlers *)

(** [m] keeps [I], whether it returns or raises. *)
Definition preserves {A} (I : World -> Prop) (m : M World A) : Prop :=
  hoare I m (fun _ => I) (fun _ => I).

(** The dataset an operation works on: none when its flag matches no
    [case]. *)
Definition target (o : Operation) : option Category :=
  match o with
  | Append f => Some (type_of_entry f)
  | Delete _ flag => case_delete_flag flag
  | Edit_note _ flag => case_note_flag flag
  | Edit_cell _ _ _ t => case_table_flag t
  | Reconcile _ => Some SAMSA
  end.

(** Everything the model holds for one dataset. *)
Definition same_dataset (c : Category) (w w' : World) : Prop :=
  files w' c = files w c /\ frames w' c = frames w c /\
  patient_d w' c = patient_d w c /\ patient_c w' c = patient_c w c /\
  note w' c = note w c /\ table w' c = table w c.

(** Everything but the note fields is the same. *)
Definition same_but_notes (w w' : World) : Prop :=
  (forall c, files w' c = files w c /\ frames w' c = frames w c /\
             patient_d w' c = patient_d w c /\
             patient_c w' c = patient_c w c /\ table w' c = table w c) /\
  textbox w' = textbox w /\ calls w' = calls w.

(** The state after the three reads and the three [addItems] of
    [populate_combos]. *)
Definition after_populate_d (w : World) (dS dT dK : Pd.DataFrame)
  (iS iT iK : list string) : World :=
  add_items_d KORTTID iK (add_items_d TES iT (add_items_d SAMSA iS
    (set_frame KORTTID dK (set_frame TES dT (set_frame SAMSA dS w))))).

Definition after_populate_c (w : World) (dS dT dK : Pd.DataFrame)
  (iS iT iK : list string) : World :=
  add_items_c KORTTID iK (add_items_c TES iT (add_items_c SAMSA iS
    (set_frame KORTTID dK (set_frame TES dT (set_frame SAMSA dS w))))).

(** The first record line of a file holds the personal number [p] and the
    note [n]. *)
Definition first_record (f : Pd.File) (p n : string) : Prop :=
  exists fn ln a e t rest,
    f = Pd.Csv HEADER ([p; fn; ln; a; e; t; n] :: rest).

(** A file with its header line and no record. *)
Definition no_record (f : Pd.File) : Prop :=
  match f with
  | Pd.Csv _ [] => True
  | _ => False
  end.

(** Everything but the frames is the same. *)
Definition same_but_frames (w w' : World) : Prop :=
  files w' = files w /\ patient_d w' = patient_d w /\
  patient_c w' = patient_c w /\ note w' = note w /\ table w' = table w /\
  textbox w' = textbox w /\ calls w' = calls w.

(** The files found at start-up. *)
Definition disk_first_run : Category -> option Pd.File := fun _ => None.

Definition disk_of (fs : Category -> Pd.File) : Category -> option Pd.File :=
  fun c => Some (fs c).

(** tes.csv exists and has no byte. *)
Definition disk_empty_tes : Category -> option Pd.File :=
  fun c => match c with
           | TES => Some Pd.EmptyFile
           | _ => Some (Pd.Csv HEADER [example_line "010101-1234" "Anna"])
           end.

(** samsa.csv has no record, tes.csv has one with a note. *)
Definition disk_tes_note : Category -> option Pd.File :=
  fun c => match c with
           | SAMSA => None
           | TES => Some (Pd.Csv HEADER
                            [["010101-1234"; "Anna"; "-"; "Centrum"; "Ja";
                              "TES"; "calls on Mondays"]])
           | KORTTID => None
           end.

(** Every dataset has a record. *)
Definition disk_three : Category -> option Pd.File :=
  fun c => Some (Pd.Csv HEADER
                   [["010101-1234"; "Anna"; "-"; "Centrum"; "Ja";
                     Category_text c; "calls on Mondays"];
                    ["020202-2345"; "Bo"; "-"; "Norrmalm"; "Nej";
                     Category_text c; "-"]]).

(** The widgets of dataset [c] show what its file holds: the frame is the
    file as read, the two boxes list its records and the grid its cells. *)
Definition views_show_file (c : Category) (w : World) : Prop :=
  Pd.read_csv (files w c) = Ok (frames w c) /\
  Pd.item_texts (Pd.body (frames w c)) = Ok (patient_d w c) /\
  patient_c w c = patient_d w c /\
  table w c = Pd.grid (frames w c).

(** Everything but the frames and the grids is the same. *)
Definition same_but_frames_and_grids (w w' : World) : Prop :=
  files w' = files w /\ patient_d w' = patient_d w /\
  patient_c w' = patient_c w /\ note w' = note w /\
  textbox w' = textbox w /\ calls w' = calls w.

(** The texts a grid shows for the record that the form stores. *)
Definition grid_texts (f : Form) : list string :=
  map Pd.str (values_dict (ADDPatient_connect_button f)).

Definition no_space (s : string) : bool :=
  forallb (fun ch => negb (Ascii.eqb ch " ")) (list_ascii_of_string s).

(** The record lines that [to_csv] writes for a frame. *)
Definition lines_of (d : Pd.DataFrame) : list (list string) :=
  map (fun r => map Pd.print_field (snd r)) (Pd.body d).

(** The personal number of the row is one of [values]. *)
Definition number_in (values : list string) (r : nat * list Pd.cell) : bool :=
  cell_mem (nth 0 (snd r) Pd.NaN) (map Pd.Str values).

(** The lines of the records of [d] whose number is one of [values]. *)
Definition kept_lines (values : list string) (d : Pd.DataFrame)
  : list (list string) :=
  lines_of (Pd.mkDF (Pd.columns d) (filter (number_in values) (Pd.body d))).

(** samsa.csv holds the kept records of [d], in their order, followed by
    placeholder records for numbers of [values]. *)
Definition reconciled (values : list string) (d : Pd.DataFrame) (w : World)
  : Prop :=
  exists extra,
    files w SAMSA = Pd.Csv HEADER (kept_lines values d ++ extra) /\
    Forall (fun l => exists v, In v values /\ l = placeholder_line v) extra.

(** The invariant of the bulk update from its first save on: the file is
    [reconciled], and so is the frame. *)
Definition reconciling (values : list string) (d : Pd.DataFrame) (w : World)
  : Prop :=
  reconciled values d w /\
  wf_frame (frames w SAMSA) /\
  exists extra,
    lines_of (frames w SAMSA) = kept_lines values d ++ extra /\
    Forall (fun l => exists v, In v values /\ l = placeholder_line v) extra.

(** The record lines of a file; none when it has no byte. *)
Definition file_lines (f : Pd.File) : list (list string) :=
  match f with
  | Pd.EmptyFile => []
  | Pd.Csv _ ls => ls
  end.

(** The line that the form adds to a file. *)
Definition form_line (f : Form) : list string :=
  [personal_nr f; or_dash (first f); or_dash (last f); Area_text (area f);
   Enrolled_text (enrolled f); Category_text (type_of_entry f);
   or_dash (note_text f)].

(** The frame of [c] is in step with its file: it is what a fresh read of
    the file gives. *)
Definition in_step (c : Category) (w : World) : Prop :=
  forall df, Pd.read_csv (files w c) = Ok df -> frames w c = df.

Definition all_in_step (w : World) : Prop := forall c, in_step c w.

(** The datasets other than [c] are in step. *)
Definition others_in_step (c : Category) (w : World) : Prop :=
  forall c', c' <> c -> in_step c' w.

(** SAMSA holds the same personal number twice, as two appends leave it. *)
Definition world_duplicate : World :=
  world_of (samsa_only [example_line "010101-1234" "Anna";
                        example_line "010101-1234" "Anna"]).

(** * Properties *)

(** ** The personal-number validator *)

Lemma digits_spec n : forall s r,
  Re.digits n s = Some r <->
  exists a, s = (a ++ r)%string /\ String.length a = n /\ all_digits a = true.
Proof.
  induction n as [|n IH]; intros s r; simpl.
  - split.
    + intros H. injection H as <-. exists ""%string. auto.
    + intros (a & -> & Hl & _). destruct a; [reflexivity | discriminate].
  - destruct s as [|c s].
    + split; [discriminate|].
      intros (a & Ha & Hl & _). destruct a; discriminate.
    + destruct (Py.is_digit c) eqn:Hc.
      * rewrite IH. split.
        -- intros (a & -> & Hl & Hd). exists (String c a).
           unfold all_digits in *. simpl. rewrite Hc, Hd, Hl. auto.
        -- intros (a & Ha & Hl & Hd). destruct a as [|c' a]; [discriminate|].
           simpl in Ha. injection Ha as <- ->. exists a.
           unfold all_digits in *. simpl in Hd.
           apply andb_true_iff in Hd. simpl in Hl. intuition lia.
      * split; [discriminate|].
        intros (a & Ha & Hl & Hd). destruct a as [|c' a]; [discriminate|].
        simpl in Ha. injection Ha as <- ->.
        unfold all_digits in Hd. simpl in Hd. rewrite Hc in Hd. discriminate.
Qed.

Lemma dollar_spec s :
  Re.dollar s = true <-> s = ""%string \/ s = String Py.LF "".
Proof.
  destruct s as [|c [|c' s]]; simpl.
  - intuition.
  - rewrite Ascii.eqb_eq. split.
    + intros ->. auto.
    + intros [H|H]; [discriminate | now injection H].
  - split; [discriminate | intros [H|H]; discriminate].
Qed.

Lemma append_assoc' (a b c : string) : ((a ++ b) ++ c = a ++ (b ++ c))%string.
Proof. induction a; simpl; congruence. Qed.

Lemma append_nil_r (a : string) : (a ++ "")%string = a.
Proof. induction a; simpl; congruence. Qed.

Lemma append_length (a b : string) :
  String.length (a ++ b) = String.length a + String.length b.
Proof. induction a; simpl; auto. Qed.



(** The strings the validator accepts: the exact format, optionally
    followed by one newline. *)
Lemma check_format_personal_nr_spec s :
  check_format_personal_nr s = true <->
  exact_format s \/ exists t, exact_format t /\ s = (t ++ String Py.LF "")%string.
Proof.
  unfold check_format_personal_nr, Re.match_personal_nr, exact_format.
  split.
  - destruct (Re.digits 6 s) as [r|] eqn:H6; [|discriminate].
    destruct r as [|h r]; [discriminate|].
    destruct (Ascii.ascii_dec h "-"%char) as [->|Hne].
    2:{ destruct h as [[] [] [] [] [] [] [] []]; try discriminate.
        exfalso. apply Hne. reflexivity. }
    destruct (Re.digits 4 r) as [r'|] eqn:H4; [|discriminate].
    intros Hd. apply dollar_spec in Hd.
    apply digits_spec in H6. destruct H6 as (a & -> & Hla & Hda).
    apply digits_spec in H4. destruct H4 as (b & -> & Hlb & Hdb).
    destruct Hd as [-> | ->].
    + left. exists a, b. rewrite append_nil_r. auto.
    + right. exists (a ++ "-" ++ b)%string. split.
      * exists a, b. auto.
      * rewrite !append_assoc'. reflexivity.
  - intros [(a & b & -> & Hla & Hlb & Hda & Hdb)
           | (t & (a & b & -> & Hla & Hlb & Hda & Hdb) & ->)].
    + assert (H6 : Re.digits 6 (a ++ "-" ++ b) = Some ("-" ++ b)%string)
        by (apply digits_spec; exists a; auto).
      rewrite H6. cbn [append].
      assert (H4 : Re.digits 4 b = Some ""%string)
        by (apply digits_spec; exists b; rewrite append_nil_r; auto).
      rewrite H4. reflexivity.
    + rewrite !append_assoc'.
      assert (H6 : Re.digits 6 (a ++ "-" ++ b ++ String Py.LF "")
                   = Some ("-" ++ b ++ String Py.LF "")%string)
        by (apply digits_spec; exists a; auto).
      rewrite H6. cbn [append].
      assert (H4 : Re.digits 4 (b ++ String Py.LF "") = Some (String Py.LF ""))
        by (apply digits_spec; exists b; auto).
      rewrite H4. reflexivity.
Qed.

Lemma exact_format_length s : exact_format s -> String.length s = 11.
Proof.
  intros (a & b & -> & Hla & Hlb & _).
  rewrite !append_length. simpl. lia.
Qed.

(** ** Rules of the program logic *)

Section Logic.

Context {A B : Type}.

Lemma hoare_ret (P : World -> Prop) (a : A) Q E :
  (forall w, P w -> Q a w) -> hoare P (ret a) Q E.
Proof. intros H w Hw. simpl. auto. Qed.

Lemma hoare_raise (P : World -> Prop) e (Q : A -> World -> Prop) E :
  (forall w, P w -> E e w) -> hoare P (raise e) Q E.
Proof. intros H w Hw. simpl. auto. Qed.

Lemma hoare_lift (P : World -> Prop) (r : result A) Q E :
  (forall w, P w -> match r with Ok a => Q a w | Raise e => E e w end) ->
  hoare P (lift r) Q E.
Proof. intros H w Hw. unfold lift. specialize (H w Hw). destruct r; auto. Qed.

Lemma hoare_gets (P : World -> Prop) (f : World -> A) Q E :
  (forall w, P w -> Q (f w) w) -> hoare P (gets f) Q E.
Proof. intros H w Hw. simpl. auto. Qed.

Lemma hoare_bind (P : World -> Prop) (m : M World A) (k : A -> M World B)
  (R : A -> World -> Prop) Q E :
  hoare P m R E -> (forall a, hoare (R a) (k a) Q E) ->
  hoare P (bind m k) Q E.
Proof.
  intros Hm Hk w Hw. unfold bind. specialize (Hm w Hw).
  destruct (m w) as [[a|e] w1]; auto. apply Hk, Hm.
Qed.

Lemma hoare_conseq (P P' : World -> Prop) (m : M World A)
  (Q Q' : A -> World -> Prop) (E E' : exn -> World -> Prop) :
  hoare P' m Q' E' ->
  (forall w, P w -> P' w) ->
  (forall a w, Q' a w -> Q a w) ->
  (forall e w, E' e w -> E e w) ->
  hoare P m Q E.
Proof.
  intros H HP HQ HE w Hw. specialize (H w (HP w Hw)).
  destruct (m w) as [[a|e] w1]; auto.
Qed.

Lemma hoare_try (P : World -> Prop) (m h : M World A) catches
  (Q : A -> World -> Prop) (E E' : exn -> World -> Prop) :
  hoare P m Q E' ->
  (forall e, catches e = true -> hoare (E' e) h Q E) ->
  (forall e w, catches e = false -> E' e w -> E e w) ->
  hoare P (try_except m catches h) Q E.
Proof.
  intros Hm Hh Hp w Hw. unfold try_except. specialize (Hm w Hw).
  destruct (m w) as [[a|e] w1]; auto.
  destruct (catches e) eqn:Hc.
  - apply (Hh e Hc w1 Hm).
  - auto.
Qed.

End Logic.

Lemma hoare_modify (P : World -> Prop) (f : World -> World) Q E :
  (forall w, P w -> Q tt (f w)) -> hoare P (modify f) Q E.
Proof. intros H w Hw. simpl. auto. Qed.

Lemma hoare_for_each {A} (I : World -> Prop) (l : list A)
  (f : A -> M World unit) E :
  (forall x, In x l -> hoare I (f x) (fun _ => I) E) ->
  hoare I (for_each l f) (fun _ => I) E.
Proof.
  induction l as [|x l IH]; intros H; simpl.
  - apply hoare_ret. auto.
  - eapply hoare_bind.
    + apply H. simpl. auto.
    + intros ?. apply IH. intros y Hy. apply H. simpl. auto.
Qed.

(** ** The observer methods *)

Section Observers.

Variable c : Category.
Variable I : World -> Prop.
Hypothesis HI : stable c I.

Lemma load_spec :
  hoare I (load c)
    (fun df w => I w /\ Pd.read_csv (files w c) = Ok df) (observer_exn c I).
Proof.
  intros w Hw. unfold load, bind, modify, ret.
  destruct (Pd.read_csv (files w c)) as [df|e] eqn:Hr.
  - split.
    + apply (st_load HI); auto.
    + exact Hr.
  - split; auto. intros ->.
    destruct (files w c); [reflexivity | discriminate].
Qed.

Lemma item_texts_raises rows e :
  Pd.item_texts rows = Raise e -> e = IndexError.
Proof.
  induction rows as [|r rows IH]; simpl; [discriminate|].
  unfold Pd.item_text.
  destruct (snd r) as [|x [|y [|z l]]]; try (now intros [= <-]).
  destruct (Pd.item_texts rows); [discriminate|].
  intros [= <-]. auto.
Qed.

Lemma select_eq_raises df col s e :
  Pd.select_eq df col s = Raise e -> e = KeyError.
Proof.
  unfold Pd.select_eq. destruct (Pd.col_pos col (Pd.columns df)).
  - discriminate.
  - now intros [= <-].
Qed.

Lemma column_item_raises cols rows col e :
  Pd.column_item cols rows col = Raise e -> e = KeyError \/ e = ValueError.
Proof.
  unfold Pd.column_item. destruct (Pd.col_pos col cols).
  - destruct rows as [|r [|r' l]]; try discriminate; intros [= <-]; auto.
  - intros [= <-]. auto.
Qed.

Lemma update_d_spec :
  hoare I (DeletePatient_update_d c) (fun _ => I) (observer_exn c I).
Proof.
  unfold DeletePatient_update_d.
  eapply hoare_bind.
  { apply hoare_modify with (Q := fun _ => I). intros w Hw. apply (st_enter HI), Hw. }
  intros ?. eapply hoare_bind. { apply load_spec. }
  intros df. eapply hoare_bind.
  { apply hoare_modify with (Q := fun _ => I).
    intros w [Hw _]. apply (st_patient_d HI), Hw. }
  intros ?. eapply hoare_bind.
  { apply hoare_lift with (Q := fun _ => I). intros w Hw.
    destruct (Pd.item_texts (Pd.body df)) eqn:Hi; auto.
    split; auto. apply item_texts_raises in Hi. subst. discriminate. }
  intros items. apply hoare_modify. intros w Hw. apply (st_patient_d HI), Hw.
Qed.

Lemma update_c_spec :
  hoare I (UpdateNote_update_c c) (fun _ => I) (observer_exn c I).
Proof.
  unfold UpdateNote_update_c.
  eapply hoare_bind.
  { apply hoare_modify with (Q := fun _ => I). intros w Hw. apply (st_enter HI), Hw. }
  intros ?. eapply hoare_bind. { apply load_spec. }
  intros df. eapply hoare_bind.
  { apply hoare_modify with (Q := fun _ => I).
    intros w [Hw _]. apply (st_patient_c HI), Hw. }
  intros ?. eapply hoare_bind.
  { apply hoare_lift with (Q := fun _ => I). intros w Hw.
    destruct (Pd.item_texts (Pd.body df)) eqn:Hi; auto.
    split; auto. apply item_texts_raises in Hi. subst. discriminate. }
  intros items. eapply hoare_bind.
  { apply hoare_modify with (Q := fun _ => I).
    intros w Hw. apply (st_patient_c HI), Hw. }
  intros ?. eapply hoare_bind.
  { apply hoare_lift with (Q := fun _ => I). intros w Hw.
    destruct (Pd.select_eq _ _ _) eqn:Hi; auto.
    split; auto. apply select_eq_raises in Hi. subst. discriminate. }
  intros record. eapply hoare_bind.
  { apply hoare_lift with (Q := fun _ => I). intros w Hw.
    destruct (Pd.column_item _ _ _) eqn:Hi; auto.
    split; auto. apply column_item_raises in Hi.
    destruct Hi; subst; discriminate. }
  intros [s|].
  - apply hoare_modify. intros w Hw. apply (st_note HI), Hw.
  - apply hoare_raise. intros w Hw. split; auto. discriminate.
Qed.

Lemma update_table_spec :
  hoare I (Display_update_table c) (fun _ => I) (observer_exn c I).
Proof.
  unfold Display_update_table.
  eapply hoare_bind.
  { apply hoare_modify with (Q := fun _ => I). intros w Hw. apply (st_enter HI), Hw. }
  intros ?. eapply hoare_bind.
  { apply hoare_modify with (Q := fun _ => I). intros w Hw. apply (st_table HI), Hw. }
  intros ?. eapply hoare_bind. { apply load_spec. }
  intros df. apply hoare_modify. intros w [Hw _]. apply (st_table HI), Hw.
Qed.

Lemma notify_observer_spec :
  hoare I (Data_notify_observer c) (fun _ => I) (observer_exn c I).
Proof.
  unfold Data_notify_observer.
  eapply hoare_bind. { apply update_d_spec. }
  intros ?. eapply hoare_bind. { apply update_c_spec. }
  intros ?. apply update_table_spec.
Qed.

Lemma when_change_spec :
  hoare I (Data_when_change_has_been_made_directly_on_table c)
    (fun _ => I) (observer_exn c I).
Proof.
  unfold Data_when_change_has_been_made_directly_on_table.
  eapply hoare_bind. { apply update_d_spec. }
  intros ?. apply update_c_spec.
Qed.

End Observers.

Lemma save_to_csv_spec c skip (P I : World -> Prop) :
  stable c I ->
  (forall w, P w -> I (set_file c (Pd.to_csv (frames w c)) w)) ->
  (forall w, I w -> files w c <> Pd.EmptyFile) ->
  hoare P (Data_save_to_csv c skip) (fun _ => I)
    (fun e w => I w /\ e <> EmptyDataError).
Proof.
  intros HI HP Hne. unfold Data_save_to_csv.
  eapply hoare_bind.
  { apply hoare_modify with (Q := fun _ => I). auto. }
  intros ?. destruct skip.
  - eapply hoare_conseq; [apply (when_change_spec HI) | auto | auto |].
    intros e w [Hw He]. split; auto. intros ->. apply (Hne w Hw). auto.
  - eapply hoare_conseq; [apply (notify_observer_spec HI) | auto | auto |].
    intros e w [Hw He]. split; auto. intros ->. apply (Hne w Hw). auto.
Qed.

(** ** Frames and files with the seven columns *)

Lemma length_enumerate {A} (l : list A) k :
  map snd (Pd.enumerate k l) = l.
Proof. revert k. induction l; intros k; simpl; congruence. Qed.

Lemma Forall_enumerate {A} (P : A -> Prop) l k :
  Forall P l -> Forall (fun r => P (snd r)) (Pd.enumerate k l).
Proof. intros H. revert k. induction H; intros k; simpl; constructor; auto. Qed.

Lemma read_csv_wf f df :
  seven_columns f -> Pd.read_csv f = Ok df -> wf_frame df.
Proof.
  destruct f as [|h ls]; simpl; [discriminate|].
  intros [-> Hl] [= <-]. split; simpl; [reflexivity|].
  apply Forall_enumerate with (P := fun l : list Pd.cell => length l = 7).
  rewrite Forall_map.
  eapply Forall_impl; [|exact Hl]. intros l. now rewrite length_map.
Qed.

Lemma to_csv_wf df : wf_frame df -> seven_columns (Pd.to_csv df).
Proof.
  intros [Hc Hb]. simpl. split; auto. rewrite Forall_map.
  eapply Forall_impl; [|exact Hb]. intros r. now rewrite length_map.
Qed.

Lemma one_row_wf k vals : length vals = 7 -> wf_frame (Pd.one_row HEADER k vals).
Proof. intros H. split; simpl; auto. Qed.

Lemma concat_wf a b : wf_frame a -> wf_frame b -> wf_frame (Pd.concat a b).
Proof.
  intros [Ha _] [Hb _]. unfold Pd.concat. rewrite Ha, Hb.
  split; simpl; [reflexivity|].
  apply Forall_app. split; rewrite Forall_map; apply Forall_forall; intros r _;
    reflexivity.
Qed.

Lemma drop_wf labels df : wf_frame df -> wf_frame (Pd.drop labels df).
Proof.
  intros [Hc Hb]. split; simpl; auto.
  apply Forall_forall. intros r Hr. apply filter_In in Hr.
  rewrite Forall_forall in Hb. apply Hb, Hr.
Qed.

Lemma reset_index_wf df : wf_frame df -> wf_frame (Pd.reset_index df).
Proof.
  intros [Hc Hb]. split; simpl; auto.
  apply Forall_enumerate with (P := fun l : list Pd.cell => length l = 7).
  rewrite Forall_map. exact Hb.
Qed.

Lemma length_set_nth {A} k (v : A) l : length (Pd.set_nth k v l) = length l.
Proof.
  revert k. induction l as [|x l IH]; intros [|k]; simpl; auto.
Qed.

Lemma set_at_wf df i v : wf_frame df -> wf_frame (Pd.set_at df i "Anteckning" v).
Proof.
  intros [Hc Hb]. unfold Pd.set_at. rewrite Hc.
  change (Pd.col_pos "Anteckning" HEADER) with (Some 6).
  split; cbn [Pd.columns Pd.body]; auto. rewrite Forall_map.
  eapply Forall_impl; [|exact Hb]. intros r Hr.
  destruct (Nat.eqb (fst r) i); cbn [snd]; auto. now rewrite length_set_nth.
Qed.

Lemma set_iat_wf df row column v df' :
  wf_frame df -> Pd.set_iat df row column v = Ok df' -> wf_frame df'.
Proof.
  intros [Hc Hb]. unfold Pd.set_iat.
  destruct (_ && _); [|discriminate]. intros [= <-].
  split; cbn [Pd.columns Pd.body]; auto. rewrite Forall_map.
  assert (H : Forall (fun p : nat * (nat * list Pd.cell) =>
                        length (snd (snd p)) = 7) (Pd.enumerate 0 (Pd.body df)))
    by (apply Forall_enumerate
          with (P := fun r : nat * list Pd.cell => length (snd r) = 7);
        exact Hb).
  eapply Forall_impl; [|exact H]. intros p Hp.
  destruct (Nat.eqb (fst p) row); cbn [snd]; auto. now rewrite length_set_nth.
Qed.

Lemma wf_world_stable c : stable c wf_world.
Proof.
  split.
  - intros cb w H. exact H.
  - intros df w H Hr c'. destruct (H c') as [Hf Hd]. split; [exact Hf|].
    simpl. unfold upd. destruct (Category_eqb c' c); auto.
    eapply read_csv_wf; [|exact Hr]. apply (H c).
  - intros v w H. exact H.
  - intros v w H. exact H.
  - intros v w H. exact H.
  - intros v w H. exact H.
Qed.

Lemma wf_world_set_frame c d w :
  wf_world w -> wf_frame d -> wf_world (set_frame c d w).
Proof.
  intros H Hd c'. destruct (H c') as [Hf Hd']. split; [exact Hf|].
  simpl. unfold upd. destruct (Category_eqb c' c); auto.
Qed.

Lemma wf_world_save c w :
  wf_world w -> wf_world (set_file c (Pd.to_csv (frames w c)) w).
Proof.
  intros H c'. destruct (H c') as [Hf Hd]. split; [|exact Hd].
  simpl. unfold upd. destruct (Category_eqb c' c); auto.
  apply to_csv_wf, (H c).
Qed.

(** Saving keeps the seven columns, whatever the observers do. *)
Lemma save_wf c skip :
  hoare wf_world (Data_save_to_csv c skip) (fun _ => wf_world)
    (fun _ => wf_world).
Proof.
  unfold Data_save_to_csv.
  eapply hoare_bind.
  { apply hoare_modify with (Q := fun _ => wf_world). apply wf_world_save. }
  intros ?. destruct skip.
  - eapply hoare_conseq; [apply (when_change_spec (wf_world_stable c)) | auto | auto |].
    intros e w [Hw _]. exact Hw.
  - eapply hoare_conseq; [apply (notify_observer_spec (wf_world_stable c)) | auto | auto |].
    intros e w [Hw _]. exact Hw.
Qed.

Lemma load_wf c :
  hoare wf_world (load c) (fun df w => wf_world w /\ wf_frame df)
    (fun _ => wf_world).
Proof.
  eapply hoare_conseq; [apply (load_spec (wf_world_stable c)) | auto | |].
  - intros df w [Hw Hr]. split; auto.
    eapply read_csv_wf; [|exact Hr]. apply (Hw c).
  - intros e w [Hw _]. exact Hw.
Qed.

Ltac keep_wf :=
  match goal with
  | |- hoare _ (ret _) _ _ => apply hoare_ret; auto
  | |- hoare _ (Data_save_to_csv _ _) _ _ => apply save_wf
  end.

Lemma ADDPatient_button_clicked_wf values :
  hoare wf_world (ADDPatient_button_clicked values) (fun _ => wf_world)
    (fun _ => wf_world).
Proof.
  unfold ADDPatient_button_clicked.
  destruct (check_format_personal_nr _); [|keep_wf].
  destruct (case_Typ _) as [c|]; [|keep_wf].
  apply hoare_try with (E' := fun _ => wf_world); auto.
  - eapply hoare_bind. { apply load_wf. }
    intros df. eapply hoare_bind with (R := fun _ => wf_world); [|intros ?; keep_wf].
    apply hoare_modify. intros w [Hw Hd]. apply wf_world_set_frame; auto.
    apply concat_wf; auto. apply one_row_wf. reflexivity.
  - intros e _.
    eapply hoare_bind with (R := fun _ => wf_world); [|intros ?; keep_wf].
    apply hoare_modify. intros w Hw. apply wf_world_set_frame; auto.
    apply one_row_wf. reflexivity.
Qed.

Lemma DeletePatient_button_clicked_wf text flag :
  hoare wf_world (DeletePatient_button_clicked text flag) (fun _ => wf_world)
    (fun _ => wf_world).
Proof.
  unfold DeletePatient_button_clicked.
  destruct (case_delete_flag _) as [c|]; [|keep_wf].
  apply hoare_try with (E' := fun _ => wf_world); auto; [|intros; keep_wf].
  eapply hoare_bind with (R := fun df w => wf_world w /\ wf_frame df).
  { apply hoare_gets. intros w Hw. split; auto. apply (Hw c). }
  intros df. eapply hoare_bind with (R := fun _ w => wf_world w /\ wf_frame df).
  { apply hoare_lift. intros w [Hw Hd]. destruct (Pd.select_eq _ _ _); auto. }
  intros rows. eapply hoare_bind with (R := fun _ w => wf_world w /\ wf_frame df).
  { apply hoare_lift. intros w [Hw Hd]. destruct (Pd.index_item _); auto. }
  intros l. eapply hoare_bind with (R := fun _ => wf_world); [|intros ?; keep_wf].
  apply hoare_modify. intros w [Hw Hd]. apply wf_world_set_frame; auto.
  apply drop_wf, Hd.
Qed.

Lemma UpdateNote_button_clicked_wf values flag :
  hoare wf_world (UpdateNote_button_clicked values flag) (fun _ => wf_world)
    (fun _ => wf_world).
Proof.
  unfold UpdateNote_button_clicked.
  destruct (case_note_flag _) as [c|]; [|keep_wf].
  apply hoare_try with (E' := fun _ => wf_world); auto; [|intros; keep_wf].
  eapply hoare_bind with (R := fun df w => wf_world w /\ wf_frame df).
  { apply hoare_gets. intros w Hw. split; auto. apply (Hw c). }
  intros df. eapply hoare_bind with (R := fun _ w => wf_world w /\ wf_frame df).
  { apply hoare_lift. intros w [Hw Hd]. destruct (Pd.select_eq _ _ _); auto. }
  intros rows. eapply hoare_bind with (R := fun _ w => wf_world w /\ wf_frame df).
  { apply hoare_lift. intros w [Hw Hd]. destruct (Pd.index_item _); auto. }
  intros l. eapply hoare_bind with (R := fun _ => wf_world); [|intros ?; keep_wf].
  apply hoare_modify. intros w [Hw Hd]. apply wf_world_set_frame; auto.
  apply set_at_wf, Hd.
Qed.

Lemma Display_cell_changed_wf row column text t :
  hoare wf_world (Display_cell_changed row column text t) (fun _ => wf_world)
    (fun _ => wf_world).
Proof.
  unfold Display_cell_changed.
  destruct (negb _); [keep_wf|].
  destruct (case_table_flag _) as [c|]; [|keep_wf].
  eapply hoare_bind with (R := fun df w => wf_world w /\ wf_frame df).
  { apply hoare_gets. intros w Hw. split; auto. apply (Hw c). }
  intros df. eapply hoare_bind with (R := fun df' w => wf_world w /\ wf_frame df').
  { apply hoare_lift. intros w [Hw Hd].
    destruct (Pd.set_iat _ _ _ _) eqn:Hs; auto. split; auto.
    eapply set_iat_wf; eauto. }
  intros df'. eapply hoare_bind with (R := fun _ => wf_world); [|intros ?; keep_wf].
  apply hoare_modify. intros w [Hw Hd]. apply wf_world_set_frame; auto.
Qed.

Lemma UpdateSamsa_button_clicked_wf set_order text :
  hoare wf_world (UpdateSamsa_button_clicked set_order text)
    (fun _ => wf_world) (fun _ => wf_world).
Proof.
  unfold UpdateSamsa_button_clicked.
  destruct (forallb _ _); [|keep_wf].
  eapply hoare_bind with (R := fun df w => wf_world w /\ wf_frame df).
  { apply hoare_gets. intros w Hw. split; auto. apply (Hw SAMSA). }
  intros df. eapply hoare_bind with (R := fun _ w => wf_world w /\ wf_frame df).
  { apply hoare_lift. intros w [Hw Hd]. destruct (Pd.tolist _ _); auto. }
  intros lst. eapply hoare_bind with (R := fun _ w => wf_world w /\ wf_frame df).
  { apply hoare_lift. intros w [Hw Hd]. destruct (select_labels _ _ _); auto. }
  intros indexes. eapply hoare_bind with (R := fun _ => wf_world).
  { apply hoare_modify. intros w [Hw Hd]. apply wf_world_set_frame; auto.
    apply reset_index_wf, drop_wf, Hd. }
  intros ?. eapply hoare_bind. { apply save_wf. }
  intros ?. eapply hoare_bind. { apply load_wf. }
  intros df'. eapply hoare_bind with (R := fun _ w => wf_world w).
  { eapply hoare_conseq with (P' := fun w => wf_world w /\ wf_frame df')
      (Q' := fun _ w => wf_world w /\ wf_frame df')
      (E' := fun _ w => wf_world w /\ wf_frame df'); try tauto.
    apply hoare_for_each. intros item _.
    eapply hoare_bind
      with (R := fun e w => (wf_world w /\ wf_frame df') /\ wf_frame e).
    { apply hoare_lift. intros w [Hw Hd].
      rewrite (proj1 Hd).
      change (Pd.from_data (placeholder item) HEADER)
        with (Ok (Pd.one_row HEADER 0 (placeholder item))).
      split; [split; [exact Hw | exact Hd] |].
      apply one_row_wf. reflexivity. }
    intros e. apply hoare_modify. intros w [[Hw Hd] He]. split; auto.
    apply wf_world_set_frame; auto. apply concat_wf; auto. apply (Hw SAMSA). }
  intros ?. eapply hoare_bind. { apply save_wf. }
  intros ?. eapply hoare_bind with (R := fun _ => wf_world);
    [apply hoare_modify; auto | intros ?; apply hoare_modify; auto].
Qed.

(** C1 (as amended): every operation of the store keeps all three files in
    the shape of the start-up file: the seven columns Personnummer,
    Förnamn, Efternamn, Område, Inskriven, Typ, Anteckning (the category
    is the stored column Typ), seven fields on every line and no index
    column; this holds also when the operation ends in an exception. *)
Theorem persisted_rows_have_seven_columns set_order (o : Operation) (w : World) :
  wf_world w ->
  forall c, seven_columns (files (snd (perform set_order o w)) c).
Proof.
  intros Hw c.
  assert (H : hoare wf_world (perform set_order o) (fun _ => wf_world)
                (fun _ => wf_world)).
  { destruct o; simpl.
    - apply ADDPatient_button_clicked_wf.
    - apply DeletePatient_button_clicked_wf.
    - apply UpdateNote_button_clicked_wf.
    - apply Display_cell_changed_wf.
    - apply UpdateSamsa_button_clicked_wf. }
  specialize (H w Hw).
  destruct (perform set_order o w) as [[[]|e] w']; apply (H c).
Qed.

(** ** Appending a patient *)

Lemma files_stable c (F : Pd.File) : stable c (fun w => files w c = F).
Proof. split; intros; assumption. Qed.

Lemma parse_print_eq_str c i :
  Pd.eq_str (Pd.parse_field (Pd.print_field c)) i = true -> Pd.eq_str c i = true.
Proof.
  destruct c as [s|]; simpl; auto.
  unfold Pd.parse_field. destruct (String.eqb s ""); simpl; auto. discriminate.
Qed.

Lemma parse_print_Str s : s <> ""%string ->
  Pd.parse_field (Pd.print_field (Pd.Str s)) = Pd.Str s.
Proof.
  intros H. simpl. unfold Pd.parse_field.
  destruct (String.eqb_spec s ""); congruence.
Qed.

Lemma reindex_HEADER cells :
  Pd.reindex_row HEADER HEADER cells =
  [nth 0 cells Pd.NaN; nth 1 cells Pd.NaN; nth 2 cells Pd.NaN;
   nth 3 cells Pd.NaN; nth 4 cells Pd.NaN; nth 5 cells Pd.NaN;
   nth 6 cells Pd.NaN].
Proof. reflexivity. Qed.

Lemma enumerate_app {A} (l l' : list A) k :
  Pd.enumerate k (l ++ l') = Pd.enumerate k l ++ Pd.enumerate (k + length l) l'.
Proof.
  revert k. induction l as [|x l IH]; intros k; simpl.
  - now rewrite Nat.add_0_r.
  - rewrite IH. do 3 f_equal. lia.
Qed.

Lemma filter_enumerate_nil {A} (p : A -> bool) l k :
  Forall (fun x => p x = false) l ->
  filter (fun r => p (snd r)) (Pd.enumerate k l) = [].
Proof.
  intros H. revert k. induction H as [|x l Hx _ IH]; intros k; simpl; auto.
  rewrite Hx. apply IH.
Qed.

Lemma check_format_nonempty i :
  check_format_personal_nr i = true -> i <> ""%string.
Proof. intros H ->. discriminate. Qed.

Lemma or_dash_nonempty s : or_dash s <> ""%string.
Proof.
  unfold or_dash. destruct (String.eqb_spec s ""); [discriminate | assumption].
Qed.

Lemma case_Typ_text c : case_Typ (Category_text c) = Some c.
Proof. destruct c; reflexivity. Qed.

Lemma Category_eqb_refl c : Category_eqb c c = true.
Proof. destruct c; reflexivity. Qed.

(** The file that an append leaves on disk. *)
Lemma ADDPatient_button_clicked_file (w : World) (f : Form) :
  check_format_personal_nr (personal_nr f) = true ->
  let c := type_of_entry f in
  let vals := values_dict (ADDPatient_connect_button f) in
  files (snd (ADDPatient_button_clicked (ADDPatient_connect_button f) w)) c =
  match Pd.read_csv (files w c) with
  | Ok df => Pd.to_csv (Pd.concat df (Pd.one_row HEADER (Pd.shape0 df) vals))
  | Raise _ => Pd.to_csv (Pd.one_row HEADER 0 vals)
  end.
Proof.
  intros Hfmt c vals.
  set (F := match Pd.read_csv (files w c) with
            | Ok df => Pd.to_csv (Pd.concat df (Pd.one_row HEADER (Pd.shape0 df) vals))
            | Raise _ => Pd.to_csv (Pd.one_row HEADER 0 vals)
            end).
  assert (H : hoare (fun w0 => w0 = w)
                (ADDPatient_button_clicked (ADDPatient_connect_button f))
                (fun _ w' => files w' c = F) (fun _ w' => files w' c = F)).
  { unfold ADDPatient_button_clicked.
    change (Personnummer (ADDPatient_connect_button f)) with (personal_nr f).
    rewrite Hfmt.
    change (Typ (ADDPatient_connect_button f)) with (Category_text c).
    rewrite case_Typ_text.
    fold vals.
    apply hoare_try
      with (E' := fun e w' => if is_EmptyDataError e
                              then w' = w /\ files w c = Pd.EmptyFile
                              else files w' c = F).
    - eapply hoare_bind
        with (R := fun df w' => files w' c = files w c /\
                                Pd.read_csv (files w c) = Ok df).
      { intros w0 ->. unfold load, bind, modify, ret.
        destruct (Pd.read_csv (files w c)) as [df|e] eqn:Hr; auto.
        destruct (files w c); [|discriminate].
        injection Hr as <-. simpl. auto. }
      intros df.
      eapply hoare_bind
        with (R := fun _ w' => frames w' c =
                     Pd.concat df (Pd.one_row HEADER (Pd.shape0 df) vals) /\
                     Pd.read_csv (files w c) = Ok df).
      { apply hoare_modify. intros w0 [_ Hr]. split; auto.
        simpl. unfold upd. now rewrite Category_eqb_refl. }
      intros ?.
      eapply hoare_conseq;
        [apply save_to_csv_spec
           with (I := fun w' => files w' c = F)
                (P := fun w' => frames w' c =
                        Pd.concat df (Pd.one_row HEADER (Pd.shape0 df) vals) /\
                        Pd.read_csv (files w c) = Ok df)
        | auto | auto | ].
      + apply files_stable.
      + intros w0 [Hf Hr]. simpl. unfold upd.
        rewrite Category_eqb_refl.
        rewrite Hf. subst F. now rewrite Hr.
      + intros w0 Hw0. rewrite Hw0. subst F.
        destruct (Pd.read_csv (files w c)); discriminate.
      + intros e w0 [Hw0 He]. destruct e; simpl; auto. congruence.
    - intros e He. destruct e; try discriminate. simpl.
      eapply hoare_bind
        with (R := fun _ w' => frames w' c = Pd.one_row HEADER 0 vals /\
                               files w c = Pd.EmptyFile).
      { apply hoare_modify. intros w0 [-> Hr]. split; auto.
        simpl. unfold upd. now rewrite Category_eqb_refl. }
      intros ?.
      eapply hoare_conseq;
        [apply save_to_csv_spec
           with (I := fun w' => files w' c = F)
                (P := fun w' => frames w' c = Pd.one_row HEADER 0 vals /\
                                files w c = Pd.EmptyFile)
        | auto | auto | ].
      + apply files_stable.
      + intros w0 [Hf Hr]. simpl. unfold upd.
        rewrite Category_eqb_refl.
        rewrite Hf. subst F. now rewrite Hr.
      + intros w0 Hw0. rewrite Hw0. subst F.
        destruct (Pd.read_csv (files w c)); discriminate.
      + intros e w0 [Hw0 _]. exact Hw0.
    - intros e w0 He Hw0. rewrite He in Hw0. exact Hw0. }
  specialize (H w eq_refl).
  destruct (ADDPatient_button_clicked (ADDPatient_connect_button f) w)
    as [[[]|e] w']; exact H.
Qed.

Lemma filter_nil_Forall {A} (p : A -> bool) l :
  filter p l = [] -> Forall (fun x => p x = false) l.
Proof.
  induction l as [|x l IH]; simpl; auto.
  destruct (p x) eqn:Hx; [discriminate|]. auto.
Qed.

Lemma values_dict_roundtrip (f : Form) :
  check_format_personal_nr (personal_nr f) = true ->
  map Pd.parse_field
      (map Pd.print_field (values_dict (ADDPatient_connect_button f))) =
  values_dict (ADDPatient_connect_button f).
Proof.
  intros Hfmt. unfold values_dict, ADDPatient_connect_button.
  cbn [map Personnummer Fornamn Efternamn Omrade Inskriven Typ Anteckning].
  rewrite !parse_print_Str; auto using or_dash_nonempty, check_format_nonempty.
  - destruct (type_of_entry f); discriminate.
  - destruct (enrolled f); discriminate.
  - destruct (area f); discriminate.
Qed.


(** ** The order of the observer calls *)

Ltac unfold_run :=
  unfold DeletePatient_update_d, UpdateNote_update_c, Display_update_table,
    load, bind, modify, lift, ret, raise, gets.

Ltac case_inner :=
  match goal with
  | |- context [match ?x with _ => _ end] =>
      lazymatch x with
      | context [match _ with _ => _ end] => fail
      | _ => destruct x eqn:?
      end
  end.

Lemma update_d_calls c w :
  calls (snd (DeletePatient_update_d c w)) = calls w ++ [Update_d c].
Proof. unfold_run. repeat (case_inner; cbn [fst snd]); reflexivity. Qed.

Lemma update_c_calls c w :
  calls (snd (UpdateNote_update_c c w)) = calls w ++ [Update_c c].
Proof. unfold_run. repeat (case_inner; cbn [fst snd]); reflexivity. Qed.

Lemma update_table_calls c w :
  calls (snd (Display_update_table c w)) = calls w ++ [Update_table c].
Proof. unfold_run. repeat (case_inner; cbn [fst snd]); reflexivity. Qed.

(** The fan-out of [notify_observer]: the delete view first, then the note
    view, then the grid; a raising observer ends it. *)
Lemma notify_observer_calls c w :
  exists rest,
    calls (snd (Data_notify_observer c w)) = calls w ++ Update_d c :: rest /\
    (rest = [] \/ rest = [Update_c c] \/ rest = [Update_c c; Update_table c]).
Proof.
  unfold Data_notify_observer, bind.
  pose proof (update_d_calls c w) as Hd.
  destruct (DeletePatient_update_d c w) as [[[]|e] w1]; simpl in Hd.
  2:{ exists []. simpl. auto. }
  pose proof (update_c_calls c w1) as Hc.
  destruct (UpdateNote_update_c c w1) as [[[]|e] w2]; simpl in Hc.
  2:{ exists [Update_c c]. simpl. rewrite Hc, Hd, <- app_assoc. auto. }
  pose proof (update_table_calls c w2) as Ht.
  exists [Update_c c; Update_table c]. rewrite Ht, Hc, Hd, <- !app_assoc. auto.
Qed.


(** ** Deleting a patient *)

Lemma delete_no_unique_match text flag c w rows :
  case_delete_flag flag = Some c ->
  Pd.select_eq (frames w c) "Personnummer" (hd "" (Py.split " " text))
    = Ok rows ->
  length rows <> 1 ->
  DeletePatient_button_clicked text flag w = (Ok tt, w).
Proof.
  intros Hflag Hsel Hlen. unfold DeletePatient_button_clicked.
  rewrite Hflag. unfold try_except, bind, gets, lift. rewrite Hsel.
  destruct rows as [|r [|r' rows]]; simpl in *; try reflexivity. lia.
Qed.

Lemma select_eq_drop df col i r :
  Pd.select_eq df col i = Ok [r] ->
  Pd.select_eq (Pd.drop [fst r] df) col i = Ok [].
Proof.
  unfold Pd.select_eq, Pd.drop. cbn [Pd.columns Pd.body].
  destruct (Pd.col_pos col (Pd.columns df)) as [k|]; [|discriminate].
  intros [= H]. f_equal.
  set (p := fun r0 : nat * list Pd.cell => Pd.eq_str (nth k (snd r0) Pd.NaN) i) in *.
  set (q := fun r0 : nat * list Pd.cell => negb (existsb (Nat.eqb (fst r0)) [fst r])).
  assert (Hpq : filter p (filter q (Pd.body df)) = filter q (filter p (Pd.body df))).
  { generalize (Pd.body df). intros l. induction l as [|x l IH]; simpl; auto.
    destruct (q x) eqn:Hq, (p x) eqn:Hp; simpl; rewrite ?Hq, ?Hp, IH; auto. }
  rewrite Hpq, H. simpl. unfold q. simpl. now rewrite Nat.eqb_refl.
Qed.

Lemma parse_print_NaN : Pd.parse_field (Pd.print_field Pd.NaN) = Pd.NaN.
Proof. reflexivity. Qed.

Lemma select_eq_reread d col i df :
  Pd.select_eq d col i = Ok [] ->
  Pd.read_csv (Pd.to_csv d) = Ok df ->
  Pd.select_eq df col i = Ok [].
Proof.
  unfold Pd.select_eq, Pd.to_csv. cbn [Pd.read_csv].
  intros H [= <-]. cbn [Pd.columns Pd.body].
  destruct (Pd.col_pos col (Pd.columns d)) as [k|]; [|discriminate].
  injection H as H. f_equal.
  apply filter_nil_Forall in H.
  apply filter_enumerate_nil
    with (p := fun cells => Pd.eq_str (nth k cells Pd.NaN) i).
  rewrite !Forall_map. eapply Forall_impl; [|exact H].
  intros r Hr. cbn beta in *.
  rewrite map_map. rewrite <- parse_print_NaN.
  rewrite (map_nth (fun c => Pd.parse_field (Pd.print_field c))).
  match goal with |- ?x = false => destruct x eqn:He end; auto.
  apply parse_print_eq_str in He. congruence.
Qed.

Lemma gone_stable c i : stable c (gone c i).
Proof.
  split; try (intros; assumption).
  intros df w [Hf (d & Hd & Hfile)] Hr. split.
  - cbn [frames set_frame]. unfold upd. rewrite Category_eqb_refl.
    rewrite Hfile in Hr. eapply select_eq_reread; eauto.
  - exists d. auto.
Qed.

(** C8: a delete whose personal number matches no row, or more than one
    row, of the frame changes nothing at all (no file, no frame, no widget,
    no observer call) and returns normally; so a delete repeated right
    after itself changes nothing. *)
Theorem delete_needs_unique_match (text flag : string) (c : Category)
  (w : World) (rows : list (nat * list Pd.cell)) :
  case_delete_flag flag = Some c ->
  Pd.select_eq (frames w c) "Personnummer" (hd "" (Py.split " " text))
    = Ok rows ->
  (length rows <> 1 ->
   DeletePatient_button_clicked text flag w = (Ok tt, w)) /\
  DeletePatient_button_clicked text flag
    (snd (DeletePatient_button_clicked text flag w))
  = (Ok tt, snd (DeletePatient_button_clicked text flag w)).
Proof.
  intros Hflag Hsel. split.
  { intros Hne. eapply delete_no_unique_match; eassumption. }
  set (i := hd "" (Py.split " " text)) in *.
  destruct (Nat.eq_dec (length rows) 1) as [Hone|Hne].
  2:{ rewrite (@delete_no_unique_match text flag c w rows Hflag Hsel Hne).
      simpl. apply (@delete_no_unique_match text flag c w rows Hflag Hsel Hne). }
  destruct rows as [|r [|r' rows]]; try discriminate. clear Hone.
  assert (H : hoare (fun w0 => w0 = w) (DeletePatient_button_clicked text flag)
                (fun _ => gone c i) (fun _ => gone c i)).
  { unfold DeletePatient_button_clicked. rewrite Hflag. fold i.
    apply hoare_try with (E' := fun _ => gone c i); auto.
    2:{ intros e _. apply hoare_ret. auto. }
    eapply hoare_bind with (R := fun df w0 => w0 = w /\ df = frames w c).
    { apply hoare_gets. intros w0 ->. auto. }
    intros df. eapply hoare_bind with (R := fun rs w0 => w0 = w /\ df = frames w c /\ rs = [r]).
    { apply hoare_lift. intros w0 [-> ->]. rewrite Hsel. auto. }
    intros rs. eapply hoare_bind
      with (R := fun l w0 => w0 = w /\ df = frames w c /\ l = fst r).
    { apply hoare_lift. intros w0 (-> & -> & ->). simpl. auto. }
    intros l. eapply hoare_bind
      with (R := fun _ w0 =>
                   Pd.select_eq (frames w0 c) "Personnummer" i = Ok []).
    { apply hoare_modify. intros w0 (-> & -> & ->).
      cbn [frames set_frame]. unfold upd. rewrite Category_eqb_refl.
      apply select_eq_drop, Hsel. }
    intros ?. eapply hoare_conseq.
    - apply save_to_csv_spec with (I := gone c i)
        (P := fun w0 => Pd.select_eq (frames w0 c) "Personnummer" i = Ok []).
      + apply gone_stable.
      + intros w0 Hw0. split.
        * exact Hw0.
        * exists (frames w0 c). split; auto.
          cbn [files set_file]. unfold upd. now rewrite Category_eqb_refl.
      + intros w0 [_ (d & _ & Hd)]. rewrite Hd. discriminate.
    - auto.
    - auto.
    - intros e w0 [Hw0 _]. exact Hw0. }
  specialize (H w eq_refl).
  destruct (DeletePatient_button_clicked text flag w) as [[[]|e] w1];
    cbn [snd]; destruct H as [Hg _];
    apply (@delete_no_unique_match text flag c w1 [] Hflag Hg); simpl; lia.
Qed.

(** ** The grid and the validator *)

Lemma cell_changed_discards row column text t w :
  truthy (Display_check_if_valid column text) = false ->
  Display_cell_changed row column text t w = (Ok tt, w).
Proof. intros H. unfold Display_cell_changed. rewrite H. reflexivity. Qed.

(** C9: a grid edit whose value fails the rule of its column returns
    without any effect: the state after it is the state before it, so no
    frame and no file is written and no observer method is called. *)
Theorem cell_changed_invalid_value_is_discarded
  (row column : nat) (text t : string) (w : World) :
  Display_check_if_valid column text <> Some true ->
  Display_cell_changed row column text t w = (Ok tt, w).
Proof.
  intros H. apply cell_changed_discards.
  destruct (Display_check_if_valid column text) as [[|]|]; auto. congruence.
Qed.

(** C10: for a column other than 0, 1, 2, 3, 4 and 6 (column 5, the hidden
    Typ column, among them) the validity check matches no case and returns
    None, and the edit returns without any effect, whatever the value. *)
Theorem cell_changed_other_column_is_discarded
  (row column : nat) (text t : string) (w : World) :
  ~ In column [0; 1; 2; 3; 4; 6] ->
  Display_check_if_valid column text = None /\
  Display_cell_changed row column text t w = (Ok tt, w).
Proof.
  intros H.
  assert (Hv : Display_check_if_valid column text = None).
  { do 7 (destruct column as [|column]; try (exfalso; apply H; simpl; tauto);
          try reflexivity). }
  split; [exact Hv|]. apply cell_changed_discards. now rewrite Hv.
Qed.

(** C5: the validator accepts the well-formed number followed by a newline:
    [$] also matches just before a final newline. *)
Theorem check_format_personal_nr_accepts_trailing_newline :
  check_format_personal_nr ("010101-1234" ++ String Py.LF "") = true /\
  ~ exact_format ("010101-1234" ++ String Py.LF "").
Proof.
  split; [reflexivity|].
  intros H. apply exact_format_length in H. discriminate.
Qed.

(** ** The bulk update of SAMSA *)

Lemma bind_gets {A B} (f : World -> A) (k : A -> M World B) w :
  bind (gets f) k w = k (f w) w.
Proof. reflexivity. Qed.

Lemma bind_lift_Ok {A B} (a : A) (k : A -> M World B) w :
  bind (lift (Ok a)) k w = k a w.
Proof. reflexivity. Qed.

(** Two iteration orders that agree on the two set differences of a call
    give the same run. *)
Lemma UpdateSamsa_button_clicked_order so so' text w :
  (forall lst, Pd.tolist (frames w SAMSA) "Personnummer" = Ok lst ->
     let vals := map Pd.Str (Py.split "," (Py.remove_char " " text)) in
     set_difference so lst vals = set_difference so' lst vals /\
     set_difference so vals lst = set_difference so' vals lst) ->
  UpdateSamsa_button_clicked so text w = UpdateSamsa_button_clicked so' text w.
Proof.
  intros H. unfold UpdateSamsa_button_clicked.
  destruct (forallb _ _); [|reflexivity].
  rewrite !bind_gets.
  destruct (Pd.tolist (frames w SAMSA) "Personnummer") as [lst|e] eqn:Hl;
    [|reflexivity].
  rewrite !bind_lift_Ok.
  destruct (H lst eq_refl) as [E1 E2]. cbv zeta in E1, E2.
  rewrite E1, E2. reflexivity.
Qed.

Section SetOrderFacts.

Variable set_order : list Pd.cell -> list Pd.cell.
Hypothesis set_order_perm : forall l, Permutation (set_order l) l.

Lemma set_order_nil : set_order [] = [].
Proof. apply Permutation_nil. symmetry. apply set_order_perm. Qed.

Lemma set_order_one x : set_order [x] = [x].
Proof. apply Permutation_length_1_inv. symmetry. apply set_order_perm. Qed.

(** A set difference with at most one element iterates in one way only. *)
Lemma set_difference_small a b :
  length (set_difference (fun l => l) a b) <= 1 ->
  set_difference set_order a b = set_difference (fun l => l) a b.
Proof.
  unfold set_difference.
  destruct (filter _ (dedup a)) as [|x [|y l]]; simpl; intros H.
  - apply set_order_nil.
  - apply set_order_one.
  - lia.
Qed.

Ltac small_differences :=
  let lst := fresh "lst" in
  let Hl := fresh "Hl" in
  intros lst Hl; vm_compute in Hl; injection Hl as <-;
  split; apply set_difference_small; vm_compute; lia.

(** C6: SAMSA holds the one patient 010101-1234 and the target list is
    020202-2345.  The record is removed and saved; the note view then reads
    the emptied dataset and raises ValueError, which nothing catches, so
    the new patient is never added and no summary is shown. *)
Theorem reconcile_stops_when_dataset_is_emptied :
  let r := UpdateSamsa_button_clicked set_order "020202-2345"
             (typing "020202-2345" world_one) in
  fst r = Raise ValueError /\
  files (snd r) SAMSA = Pd.Csv HEADER [] /\
  textbox (snd r) = Typed "020202-2345" /\
  calls (snd r) = [Update_d SAMSA; Update_c SAMSA].
Proof.
  rewrite (@UpdateSamsa_button_clicked_order set_order (fun l => l));
    [|small_differences].
  vm_compute. auto.
Qed.

(** C7: the same call repeated on the state the first call left: the
    dataset is still empty, the note view raises ValueError again before
    any list is computed for the summary, and 020202-2345 is still not
    stored. *)
Theorem reconcile_repeated_stops_again :
  let r1 := UpdateSamsa_button_clicked set_order "020202-2345"
              (typing "020202-2345" world_one) in
  let r2 := UpdateSamsa_button_clicked set_order "020202-2345" (snd r1) in
  fst r2 = Raise ValueError /\
  files (snd r2) SAMSA = Pd.Csv HEADER [] /\
  textbox (snd r2) = Typed "020202-2345".
Proof.
  cbv zeta.
  rewrite (@UpdateSamsa_button_clicked_order set_order (fun l => l) _
             (typing "020202-2345" world_one)); [|small_differences].
  rewrite (@UpdateSamsa_button_clicked_order set_order (fun l => l));
    [|small_differences].
  vm_compute. auto.
Qed.

(** The scenario of the specification: SAMSA holds 010101-1234 and
    020202-2345, the target list is 020202-2345, 030303-3456. *)
Lemma reconcile_scenario :
  let r := UpdateSamsa_button_clicked set_order "020202-2345, 030303-3456"
             world_two in
  fst r = Ok tt /\
  textbox (snd r) = Summary ["010101-1234"] ["030303-3456"] /\
  files (snd r) SAMSA =
    Pd.Csv HEADER [example_line "020202-2345" "Bo";
                   ["030303-3456"; "-"; "-"; "-"; "-"; "-"; "-"]].
Proof.
  rewrite (@UpdateSamsa_button_clicked_order set_order (fun l => l));
    [|small_differences].
  vm_compute. auto.
Qed.

End SetOrderFacts.

(** ** Sorting *)

Lemma cell_leb_total a b : cell_leb a b = false -> cell_leb b a = true.
Proof.
  destruct a as [s|], b as [t|]; simpl; auto; try discriminate.
  destruct (String.leb_total s t) as [H|H]; congruence.
Qed.

Lemma row_leb_total k r r' : row_leb k r r' = false -> row_leb k r' r = true.
Proof. apply cell_leb_total. Qed.

Section Insertion.

Variable k : nat.

Lemma insert_first_perm x l : Permutation (insert_first k x l) (x :: l).
Proof.
  induction l as [|y l IH]; simpl; auto.
  destruct (row_leb k x y); auto.
  rewrite IH. apply perm_swap.
Qed.

Lemma insert_last_perm x l : Permutation (insert_last k x l) (x :: l).
Proof.
  induction l as [|y l IH]; simpl; auto.
  destruct (row_leb k y x); auto.
  rewrite IH. apply perm_swap.
Qed.

Lemma insert_first_sorted x l : Sorted (row_le k) l -> Sorted (row_le k) (insert_first k x l).
Proof.
  induction 1 as [|y l Hs IH Hd]; simpl.
  - repeat constructor.
  - destruct (row_leb k x y) eqn:Hxy.
    + repeat constructor; auto.
    + constructor; auto.
      destruct l as [|z l]; simpl in *.
      * constructor. apply row_leb_total, Hxy.
      * destruct (row_leb k x z).
        -- constructor. apply row_leb_total, Hxy.
        -- constructor. inversion Hd. assumption.
Qed.

Lemma insert_last_sorted x l : Sorted (row_le k) l -> Sorted (row_le k) (insert_last k x l).
Proof.
  induction 1 as [|y l Hs IH Hd]; simpl.
  - repeat constructor.
  - destruct (row_leb k y x) eqn:Hyx.
    + constructor; auto.
      destruct l as [|z l]; simpl in *.
      * constructor. exact Hyx.
      * destruct (row_leb k z x).
        -- constructor. inversion Hd. assumption.
        -- constructor. exact Hyx.
    + repeat constructor; auto. apply row_leb_total, Hyx.
Qed.

End Insertion.

Lemma sort_with_sorts ins :
  (forall k x l, Permutation (ins k x l) (x :: l)) ->
  (forall k x l, Sorted (row_le k) l -> Sorted (row_le k) (ins k x l)) ->
  sorts_by_column (sort_with ins).
Proof.
  intros Hp Hs col df k Hk. unfold sort_with. rewrite Hk. simpl.
  split; [reflexivity|]. split.
  - induction (Pd.body df) as [|x l IH]; simpl; auto.
    rewrite Hp. auto.
  - induction (Pd.body df) as [|x l IH]; simpl; auto.
Qed.

Lemma sort_values_keeping_ties_sorts : sorts_by_column sort_values_keeping_ties.
Proof.
  apply sort_with_sorts; auto using insert_first_perm, insert_first_sorted.
Qed.

Lemma sort_values_reversing_ties_sorts :
  sorts_by_column sort_values_reversing_ties.
Proof.
  apply sort_with_sorts; auto using insert_last_perm, insert_last_sorted.
Qed.

Lemma precedes_map {A B} (f : A -> B) x y l :
  precedes x y l -> precedes (f x) (f y) (map f l).
Proof.
  intros (l1 & l2 & l3 & ->). exists (map f l1), (map f l2), (map f l3).
  rewrite map_app. simpl. rewrite map_app. reflexivity.
Qed.

Lemma precedes_after_first x y l :
  precedes x y l -> In y (after_first x l).
Proof.
  intros (l1 & l2 & l3 & ->).
  induction l1 as [|a l1 IH]; simpl.
  - rewrite Nat.eqb_refl. apply in_or_app. right. simpl. auto.
  - destruct (Nat.eqb a x); auto.
    apply in_or_app. right. right. apply in_or_app. right. simpl. auto.
Qed.

(** C3 (as amended): a click on the first-name button reads the file
    afresh and publishes its rows in ascending order of Förnamn, each row
    once, without writing the file; this is all that [sort_values] with
    the default kind promises, the order of equal names is left to it. *)
Theorem sort_by_first_name_orders_the_fresh_read
  (sort_values : list string -> Pd.DataFrame -> Pd.DataFrame)
  (flag1 : string) (c : Category) (w : World) (ls : list (list string)) :
  sorts_by_column sort_values ->
  case_table_flag flag1 = Some c ->
  files w c = Pd.Csv HEADER ls ->
  let w' := snd (Display_button_clicked sort_values flag1 "first" w) in
  files w' = files w /\
  Permutation (Pd.body (frames w' c))
              (Pd.enumerate 0 (map (map Pd.parse_field) ls)) /\
  Sorted (row_le 1) (Pd.body (frames w' c)).
Proof.
  intros Hs Hflag Hfile. unfold Display_button_clicked. rewrite Hflag.
  change (case_sort_flag "first") with (Some ["Förnamn"]).
  unfold bind, gets, modify. cbn [files set_table]. rewrite Hfile.
  cbn [Pd.read_csv snd files frames set_frame set_table].
  unfold upd. rewrite Category_eqb_refl.
  destruct (Hs "Förnamn"
              (Pd.mkDF HEADER (Pd.enumerate 0 (map (map Pd.parse_field) ls)))
              1 eq_refl) as (_ & Hp & Hsorted).
  auto.
Qed.

(** ** Counterexamples to the statements of the specification *)

(** C1, as the specification states it, fails: the file written at start-up
    and the file after an append have seven columns, Typ among them, and
    the appended line stores the category. *)
Lemma stored_file_has_Typ_column :
  ~ six_display_columns (Window_create_files (fun _ => None) SAMSA) /\
  ~ six_display_columns
      (files (snd (perform (fun l => l) (Append form_new) world_fresh)) SAMSA) /\
  files (snd (perform (fun l => l) (Append form_new) world_fresh)) SAMSA =
    Pd.Csv HEADER [["010101-1234"; "-"; "-"; "Centrum"; "Ja"; "SAMSA"; "-"]].
Proof.
  repeat split.
  - vm_compute. intros [H _]. discriminate H.
  - vm_compute. intros [H _]. discriminate H.
Qed.



(** ** Instances *)

Lemma persisted_rows_have_seven_columns_witness :
  wf_world world_fresh /\
  forall c, seven_columns
    (files (snd (perform (fun l => l) (Append form_new) world_fresh)) c).
Proof.
  assert (H : wf_world world_fresh)
    by (intros c; destruct c; split; vm_compute; repeat constructor).
  split.
  - exact H.
  - apply (@persisted_rows_have_seven_columns (fun l => l) (Append form_new)
             world_fresh H).
Defined.



Lemma delete_needs_unique_match_witness :
  (length (@nil (nat * list Pd.cell)) <> 1 ->
   DeletePatient_button_clicked "999999-9999 Ida -" "s" world_one
   = (Ok tt, world_one)) /\
  DeletePatient_button_clicked "999999-9999 Ida -" "s"
    (snd (DeletePatient_button_clicked "999999-9999 Ida -" "s" world_one))
  = (Ok tt, snd (DeletePatient_button_clicked "999999-9999 Ida -" "s" world_one)).
Proof.
  apply (@delete_needs_unique_match "999999-9999 Ida -" "s" SAMSA world_one []).
  - reflexivity.
  - vm_compute. reflexivity.
Defined.

Lemma cell_changed_invalid_value_is_discarded_witness :
  Display_cell_changed 0 3 "Nowhere" "S" world_one = (Ok tt, world_one).
Proof.
  apply cell_changed_invalid_value_is_discarded. vm_compute. discriminate.
Defined.

Lemma cell_changed_other_column_is_discarded_witness :
  Display_check_if_valid 5 "TES" = None /\
  Display_cell_changed 0 5 "TES" "S" world_one = (Ok tt, world_one).
Proof.
  apply cell_changed_other_column_is_discarded. simpl. lia.
Defined.

Lemma identity_order_perm (l : list Pd.cell) : Permutation ((fun l => l) l) l.
Proof. apply Permutation_refl. Defined.

Lemma reconcile_stops_when_dataset_is_emptied_witness :
  let r := UpdateSamsa_button_clicked (fun l => l) "020202-2345"
             (typing "020202-2345" world_one) in
  fst r = Raise ValueError /\
  files (snd r) SAMSA = Pd.Csv HEADER [] /\
  textbox (snd r) = Typed "020202-2345" /\
  calls (snd r) = [Update_d SAMSA; Update_c SAMSA].
Proof.
  apply (@reconcile_stops_when_dataset_is_emptied (fun l => l)
           identity_order_perm).
Defined.

Lemma reconcile_repeated_stops_again_witness :
  let r1 := UpdateSamsa_button_clicked (fun l => l) "020202-2345"
              (typing "020202-2345" world_one) in
  let r2 := UpdateSamsa_button_clicked (fun l => l) "020202-2345" (snd r1) in
  fst r2 = Raise ValueError /\
  files (snd r2) SAMSA = Pd.Csv HEADER [] /\
  textbox (snd r2) = Typed "020202-2345".
Proof.
  apply (@reconcile_repeated_stops_again (fun l => l) identity_order_perm).
Defined.

(** C3, as the specification states it, does not follow: a sort that
    returns the rows in ascending order of Förnamn, as [sort_values] is
    documented to, may return the eighteen patients without a first name
    in another order than the one read. *)
Lemma sort_by_first_name_need_not_keep_ties :
  sorts_by_column sort_values_reversing_ties /\
  ~ ties_keep_read_order 1
      (Pd.enumerate 0 (map (map Pd.parse_field)
         (match files world_placeholders SAMSA with
          | Pd.Csv _ ls => ls
          | Pd.EmptyFile => []
          end)))
      (Pd.body (frames (snd (Display_button_clicked
                               sort_values_reversing_ties "S" "first"
                               world_placeholders)) SAMSA)).
Proof.
  split; [exact sort_values_reversing_ties_sorts|].
  intros H.
  specialize (H (1, map Pd.Str (placeholder_line "010101-1002"))
                (2, map Pd.Str (placeholder_line "010101-1003")) eq_refl).
  assert (Hread : precedes (1, map Pd.Str (placeholder_line "010101-1002"))
                    (2, map Pd.Str (placeholder_line "010101-1003"))
                    (Pd.enumerate 0 (map (map Pd.parse_field)
                       (match files world_placeholders SAMSA with
                        | Pd.Csv _ ls => ls
                        | Pd.EmptyFile => []
                        end)))).
  { eexists [_], [], _. vm_compute. reflexivity. }
  apply H in Hread. apply (precedes_map fst) in Hread.
  apply precedes_after_first in Hread. vm_compute in Hread.
  destruct Hread as [Hd|[]]. discriminate Hd.
Qed.

Lemma sort_by_first_name_orders_the_fresh_read_witness :
  let w' := snd (Display_button_clicked sort_values_keeping_ties "S" "first"
                   world_ties) in
  files w' = files world_ties /\
  Permutation (Pd.body (frames w' SAMSA))
    (Pd.enumerate 0 (map (map Pd.parse_field)
       [example_line "010101-1234" "Anna";
        example_line "020202-2345" "Anna"])) /\
  Sorted (row_le 1) (Pd.body (frames w' SAMSA)).
Proof.
  apply (@sort_by_first_name_orders_the_fresh_read sort_values_keeping_ties
           "S" SAMSA world_ties
           [example_line "010101-1234" "Anna";
            example_line "020202-2345" "Anna"]).
  - exact sort_values_keeping_ties_sorts.
  - reflexivity.
  - reflexivity.
Defined.

(** * Further properties of the handlers *)

(** ** Invariants kept by every step *)

Lemma preserves_ret {A} I (a : A) : preserves I (ret a).
Proof. apply hoare_ret. auto. Qed.

Lemma preserves_raise {A} I e : preserves I (raise e : M World A).
Proof. apply hoare_raise. auto. Qed.

Lemma preserves_lift {A} I (r : result A) : preserves I (lift r).
Proof. apply hoare_lift. intros w Hw. destruct r; auto. Qed.

Lemma preserves_gets {A} I (f : World -> A) : preserves I (gets f).
Proof. apply hoare_gets. auto. Qed.

Lemma preserves_modify I f :
  (forall w, I w -> I (f w)) -> preserves I (modify f).
Proof. intros H. apply hoare_modify. auto. Qed.

Lemma preserves_bind {A B} I (m : M World A) (k : A -> M World B) :
  preserves I m -> (forall a, preserves I (k a)) -> preserves I (bind m k).
Proof. intros Hm Hk. eapply hoare_bind; [exact Hm | exact Hk]. Qed.

Lemma preserves_try {A} I (m h : M World A) catches :
  preserves I m -> preserves I h -> preserves I (try_except m catches h).
Proof.
  intros Hm Hh. eapply hoare_try with (E' := fun _ => I); auto.
Qed.

Lemma preserves_for_each {A} I (l : list A) (f : A -> M World unit) :
  (forall x, preserves I (f x)) -> preserves I (for_each l f).
Proof. intros H. apply hoare_for_each. intros x _. apply H. Qed.

Lemma preserves_load c I : stable c I -> preserves I (load c).
Proof.
  intros HI. eapply hoare_conseq; [apply (load_spec HI) | auto | |].
  - intros a w [Hw _]. exact Hw.
  - intros e w [Hw _]. exact Hw.
Qed.

Lemma preserves_save c skip I :
  stable c I ->
  (forall w, I w -> I (set_file c (Pd.to_csv (frames w c)) w)) ->
  preserves I (Data_save_to_csv c skip).
Proof.
  intros HI Hs. unfold Data_save_to_csv.
  apply preserves_bind; [apply preserves_modify, Hs|]. intros ?.
  destruct skip.
  - eapply hoare_conseq; [apply (when_change_spec HI) | auto | auto |].
    intros e w [Hw _]. exact Hw.
  - eapply hoare_conseq; [apply (notify_observer_spec HI) | auto | auto |].
    intros e w [Hw _]. exact Hw.
Qed.

Lemma preserves_run {A} I (m : M World A) w :
  preserves I m -> I w -> I (snd (m w)).
Proof.
  intros H Hw. specialize (H w Hw). destruct (m w) as [[a|e] w']; exact H.
Qed.

(** ** An operation touches one dataset only *)

Lemma Category_eqb_neq c c' : c' <> c -> Category_eqb c' c = false.
Proof. destruct c, c'; simpl; congruence. Qed.

Section OtherDataset.

Variables (c c' : Category) (w0 : World).
Hypothesis Hcc : c' <> c.

Ltac other := unfold same_dataset; simpl; unfold upd;
              rewrite ?(Category_eqb_neq Hcc); auto.

Lemma other_stable : stable c (same_dataset c' w0).
Proof. split; intros; other. Qed.

Lemma other_set_frame v w : (same_dataset c' w0) w -> (same_dataset c' w0) (set_frame c v w).
Proof. other. Qed.

Lemma other_set_file v w : (same_dataset c' w0) w -> (same_dataset c' w0) (set_file c v w).
Proof. other. Qed.

Lemma other_save skip : preserves (same_dataset c' w0) (Data_save_to_csv c skip).
Proof.
  apply preserves_save; [apply other_stable|]. intros w. apply other_set_file.
Qed.

End OtherDataset.

Ltac other_modify Hcc :=
  apply preserves_modify;
  let w := fresh "w" in
  let H := fresh "H" in
  intros w H; unfold same_dataset in *; simpl; unfold upd;
  rewrite ?(Category_eqb_neq Hcc); exact H.

Ltac other_steps Hcc :=
  repeat first
    [ apply preserves_ret
    | apply preserves_raise
    | apply preserves_lift
    | apply preserves_gets
    | apply (other_save _ Hcc)
    | apply preserves_load, (other_stable _ Hcc)
    | other_modify Hcc
    | apply preserves_try
    | apply preserves_for_each; intros ?
    | apply preserves_bind; [|intros ?]
    | match goal with
      | |- preserves _ (match ?x with _ => _ end) => destruct x
      end ].

Lemma same_dataset_refl c w : same_dataset c w w.
Proof. repeat split. Qed.

(** X1: an operation changes nothing of a dataset it does not work on: neither
    its file, nor its frame, nor the widgets showing it; with a flag that
    matches no case it changes nothing of any dataset. *)
Theorem operation_leaves_other_datasets
  (set_order : list Pd.cell -> list Pd.cell) (o : Operation)
  (c' : Category) (w : World) :
  target o <> Some c' ->
  same_dataset c' w (snd (perform set_order o w)).
Proof.
  intros Ht. apply preserves_run; [|apply same_dataset_refl].
  destruct o as [f|text flag|values flag|row column text t|text];
    simpl in Ht |- *.
  - unfold ADDPatient_button_clicked.
    change (Typ (ADDPatient_connect_button f))
      with (Category_text (type_of_entry f)).
    rewrite case_Typ_text.
    assert (Hcc : c' <> type_of_entry f) by congruence.
    destruct (check_format_personal_nr _); other_steps Hcc.
  - unfold DeletePatient_button_clicked.
    destruct (case_delete_flag flag) as [c|]; [|apply preserves_ret].
    assert (Hcc : c' <> c) by congruence. other_steps Hcc.
  - unfold UpdateNote_button_clicked.
    destruct (case_note_flag flag) as [c|]; [|apply preserves_ret].
    assert (Hcc : c' <> c) by congruence. other_steps Hcc.
  - unfold Display_cell_changed.
    destruct (negb _); [apply preserves_ret|].
    destruct (case_table_flag t) as [c|]; [|apply preserves_ret].
    assert (Hcc : c' <> c) by congruence. other_steps Hcc.
  - unfold UpdateSamsa_button_clicked.
    assert (Hcc : c' <> SAMSA) by congruence.
    destruct (forallb _ _); other_steps Hcc.
Qed.

Lemma operation_leaves_other_datasets_witness :
  same_dataset TES world_two
    (snd (perform (fun l => l) (Delete "010101-1234 Anna -" "s") world_two)).
Proof.
  apply operation_leaves_other_datasets. simpl. discriminate.
Defined.

(** ** Start-up *)

Lemma item_texts_total rows :
  Forall (fun r : nat * list Pd.cell => 3 <= length (snd r)) rows ->
  exists items, Pd.item_texts rows = Ok items.
Proof.
  induction 1 as [|r rows Hr _ (items & IH)]; simpl.
  - eauto.
  - unfold Pd.item_text. destruct (snd r) as [|a [|b [|c0 l]]]; simpl in Hr;
      try lia.
    rewrite IH. eauto.
Qed.

Lemma seven_columns_readable f :
  f <> Pd.EmptyFile -> seven_columns f ->
  exists df items,
    Pd.read_csv f = Ok df /\ Pd.item_texts (Pd.body df) = Ok items.
Proof.
  intros Hne Hs. destruct f as [|h ls]; [congruence|].
  destruct (@item_texts_total
              (Pd.body (Pd.mkDF h (Pd.enumerate 0 (map (map Pd.parse_field) ls)))))
    as (items & Hi).
  - simpl.
    apply Forall_enumerate
      with (P := fun l : list Pd.cell => 3 <= length l).
    rewrite Forall_map. destruct Hs as [_ Hl].
    eapply Forall_impl; [|exact Hl]. intros l Hlen.
    rewrite length_map. simpl in Hlen. lia.
  - eexists. exists items. split; [reflexivity | exact Hi].
Qed.

Lemma create_file_readable (f : option Pd.File) :
  (forall f0, f = Some f0 -> f0 <> Pd.EmptyFile /\ seven_columns f0) ->
  create_file f <> Pd.EmptyFile /\ seven_columns (create_file f).
Proof.
  intros H. destruct f as [f0|]; simpl.
  - apply H. reflexivity.
  - split; [discriminate|]. split; [reflexivity | constructor].
Qed.

(** [set_default_values] swallows the only exception its body can raise. *)
Lemma default_note_raises c w e w' :
  default_note c w = (Raise e, w') -> e = KeyError.
Proof.
  unfold default_note, bind, gets, lift, modify, ret.
  destruct (Pd.select_eq _ _ _) as [rows|e1] eqn:Hs.
  - destruct (Pd.at_ _ _ _) as [[s|]|e2] eqn:Ha; try discriminate.
    intros [= <- _]. unfold Pd.at_ in Ha.
    destruct (Pd.col_pos _ _); [|congruence].
    destruct (find _ _); congruence.
  - intros [= <- _]. eapply select_eq_raises, Hs.
Qed.

Lemma UpdateNote_set_default_values_returns w :
  fst (UpdateNote_set_default_values w) = Ok tt.
Proof.
  unfold UpdateNote_set_default_values, try_except, bind.
  destruct (default_note SAMSA w) as [[[]|e] w1] eqn:H1.
  2:{ rewrite (default_note_raises _ _ H1). reflexivity. }
  destruct (default_note TES w1) as [[[]|e] w2] eqn:H2.
  2:{ rewrite (default_note_raises _ _ H2). reflexivity. }
  destruct (default_note KORTTID w2) as [[[]|e] w3] eqn:H3.
  2:{ rewrite (default_note_raises _ _ H3). reflexivity. }
  reflexivity.
Qed.

Lemma bind_Ok {A B} (m : M World A) (k : A -> M World B) w a w' :
  m w = (Ok a, w') -> bind m k w = k a w'.
Proof. intros H. unfold bind. rewrite H. reflexivity. Qed.

Lemma bind_Raise {A B} (m : M World A) (k : A -> M World B) w e w' :
  m w = (Raise e, w') -> bind m k w = (Raise e, w').
Proof. intros H. unfold bind. rewrite H. reflexivity. Qed.

Lemma load_Ok c w df :
  Pd.read_csv (files w c) = Ok df -> load c w = (Ok df, set_frame c df w).
Proof. intros H. unfold load, bind, modify, ret. rewrite H. reflexivity. Qed.

Lemma load_Raise c w :
  files w c = Pd.EmptyFile -> load c w = (Raise EmptyDataError, w).
Proof. intros H. unfold load, bind. rewrite H. reflexivity. Qed.

Section Populate.

Variables (w : World) (dS dT dK : Pd.DataFrame) (iS iT iK : list string).
Hypothesis HrS : Pd.read_csv (files w SAMSA) = Ok dS.
Hypothesis HrT : Pd.read_csv (files w TES) = Ok dT.
Hypothesis HrK : Pd.read_csv (files w KORTTID) = Ok dK.
Hypothesis HiS : Pd.item_texts (Pd.body dS) = Ok iS.
Hypothesis HiT : Pd.item_texts (Pd.body dT) = Ok iT.
Hypothesis HiK : Pd.item_texts (Pd.body dK) = Ok iK.

Ltac run_reads :=
  rewrite (@bind_Ok _ _ _ _ _ _ _ (@load_Ok SAMSA _ _ HrS));
  rewrite (@bind_Ok _ _ _ _ _ _ _ (@load_Ok TES (set_frame SAMSA dS w) _ HrT));
  rewrite (@bind_Ok _ _ _ _ _ _ _ (@load_Ok KORTTID
                         (set_frame TES dT (set_frame SAMSA dS w)) _ HrK));
  rewrite HiS, HiT, HiK.

Lemma DeletePatient_populate_combos_Ok :
  DeletePatient_populate_combos w
  = (Ok tt, after_populate_d w dS dT dK iS iT iK).
Proof.
  unfold DeletePatient_populate_combos, try_except. run_reads. reflexivity.
Qed.

Lemma UpdateNote_add_items_to_combos_Ok :
  UpdateNote_add_items_to_combos w
  = (Ok tt, after_populate_c w dS dT dK iS iT iK).
Proof.
  unfold UpdateNote_add_items_to_combos. run_reads. reflexivity.
Qed.

End Populate.

Lemma same_but_notes_refl w : same_but_notes w w.
Proof. repeat split. Qed.

Lemma default_note_notes_only w0 c : preserves (same_but_notes w0) (default_note c).
Proof.
  unfold default_note.
  apply preserves_bind; [apply preserves_gets|]. intros w.
  apply preserves_bind; [apply preserves_lift|]. intros active.
  apply preserves_bind; [apply preserves_lift|]. intros [s|].
  - apply preserves_modify. intros w1 H. exact H.
  - apply preserves_ret.
Qed.

Lemma set_default_values_notes_only w :
  same_but_notes w (snd (UpdateNote_set_default_values w)).
Proof.
  apply preserves_run; [|apply same_but_notes_refl].
  unfold UpdateNote_set_default_values.
  apply preserves_try; [|apply preserves_ret].
  repeat (apply preserves_bind; [apply default_note_notes_only|]; intros ?).
  apply default_note_notes_only.
Qed.

Section StartUp.

Variable disk : Category -> option Pd.File.
Variables (dS dT dK : Pd.DataFrame) (iS iT iK : list string).
Hypothesis HrS : Pd.read_csv (Window_create_files disk SAMSA) = Ok dS.
Hypothesis HrT : Pd.read_csv (Window_create_files disk TES) = Ok dT.
Hypothesis HrK : Pd.read_csv (Window_create_files disk KORTTID) = Ok dK.
Hypothesis HiS : Pd.item_texts (Pd.body dS) = Ok iS.
Hypothesis HiT : Pd.item_texts (Pd.body dT) = Ok iT.
Hypothesis HiK : Pd.item_texts (Pd.body dK) = Ok iK.

(** The state in which [set_default_values] runs. *)
Lemma Window_init_readable :
  Window_init disk =
  Display_init
    (snd (UpdateNote_set_default_values
            (after_populate_c
               (after_populate_d (world_init (Window_create_files disk))
                                 dS dT dK iS iT iK)
               dS dT dK iS iT iK))).
Proof.
  unfold Window_init.
  rewrite (@bind_Ok _ _ _ _ _ _ _
             (@DeletePatient_populate_combos_Ok
                (world_init (Window_create_files disk)) _ _ _ _ _ _
                HrS HrT HrK HiS HiT HiK)).
  rewrite (@bind_Ok _ _ _ _ _ _ _
             (@UpdateNote_add_items_to_combos_Ok
                (after_populate_d (world_init (Window_create_files disk))
                                  dS dT dK iS iT iK)
                _ _ _ _ _ _ HrS HrT HrK HiS HiT HiK)).
  unfold bind at 1.
  pose proof (UpdateNote_set_default_values_returns
                (after_populate_c
                   (after_populate_d (world_init (Window_create_files disk))
                                     dS dT dK iS iT iK)
                   dS dT dK iS iT iK)) as Hret.
  destruct (UpdateNote_set_default_values _) as [[[]|e] w3];
    [reflexivity | discriminate].
Qed.

End StartUp.

Lemma Display_init_run w :
  Display_init w
  = (Ok tt,
     set_table KORTTID (Pd.grid (frames w KORTTID))
       (set_table TES (Pd.grid (frames w TES))
          (set_table SAMSA (Pd.grid (frames w SAMSA)) w))).
Proof. reflexivity. Qed.

(** X3: start-up on readable files: when every data file that exists has a
    header line and the seven-column shape, [Window.__init__] returns, and
    it leaves every widget showing its file: the frames are the files as
    read, the boxes of the delete view and of the note view list one item
    per record, the grids show the cells, and no observer method has run.
    Only the note fields are not determined by this. *)
Theorem start_up_reads_every_file (disk : Category -> option Pd.File) :
  (forall c f, disk c = Some f -> f <> Pd.EmptyFile /\ seven_columns f) ->
  fst (Window_init disk) = Ok tt /\
  same_but_notes (world_of (Window_create_files disk))
                 (snd (Window_init disk)).
Proof.
  intros H.
  assert (Hread : forall c, exists df items,
             Pd.read_csv (Window_create_files disk c) = Ok df /\
             Pd.item_texts (Pd.body df) = Ok items).
  { intros c. destruct (@create_file_readable (disk c) (H c)) as [Hne Hs].
    apply seven_columns_readable; assumption. }
  destruct (Hread SAMSA) as (dS & iS & HrS & HiS).
  destruct (Hread TES) as (dT & iT & HrT & HiT).
  destruct (Hread KORTTID) as (dK & iK & HrK & HiK).
  rewrite (@Window_init_readable disk _ _ _ _ _ _ HrS HrT HrK HiS HiT HiK).
  match goal with
  | |- context [UpdateNote_set_default_values ?w2] =>
      pose proof (set_default_values_notes_only w2) as (Hc & Ht & Hk);
      destruct (UpdateNote_set_default_values w2) as [r w3]
  end.
  cbn [snd] in *. rewrite Display_init_run. split; [reflexivity|].
  cbn [snd]. unfold same_but_notes, world_of, frame_of.
  fold (Window_create_files disk).
  split; [|split].
  - intros c. destruct (Hc c) as (H1 & H2 & H3 & H4 & H5).
    cbn [files frames patient_d patient_c table set_table].
    rewrite H1, H3, H4.
    destruct c; unfold upd; cbn [Category_eqb]; rewrite H2;
      cbn; unfold upd; cbn [Category_eqb];
      rewrite ?HrS, ?HrT, ?HrK, ?HiS, ?HiT, ?HiK; auto.
  - exact Ht.
  - exact Hk.
Qed.

Lemma start_up_reads_every_file_witness :
  fst (Window_init disk_first_run) = Ok tt /\
  same_but_notes (world_of (Window_create_files disk_first_run))
                 (snd (Window_init disk_first_run)).
Proof.
  apply (@start_up_reads_every_file disk_first_run).
  intros c f H. discriminate H.
Defined.

(** The three reads that open [populate_combos] and [add_items_to_combos]:
    a file without any byte among the three makes them raise before any
    box is filled. *)
Lemma three_loads_fail {A}
  (k : Pd.DataFrame -> Pd.DataFrame -> Pd.DataFrame -> M World A) c w :
  files w c = Pd.EmptyFile ->
  exists w',
    (samsa <- load SAMSA ;; tes <- load TES ;; korttid <- load KORTTID ;;
     k samsa tes korttid) w = (Raise EmptyDataError, w') /\
    same_but_frames w w'.
Proof.
  intros H. unfold load, bind, modify, ret.
  destruct (Pd.read_csv (files w SAMSA)) as [dS|e] eqn:HS.
  2:{ destruct (files w SAMSA); [|discriminate]. injection HS as <-.
      eexists. split; [reflexivity|]. repeat split. }
  cbn [files set_frame].
  destruct (Pd.read_csv (files w TES)) as [dT|e] eqn:HT.
  2:{ destruct (files w TES); [|discriminate]. injection HT as <-.
      eexists. split; [reflexivity|]. repeat split. }
  cbn [files set_frame].
  destruct (Pd.read_csv (files w KORTTID)) as [dK|e] eqn:HK.
  2:{ destruct (files w KORTTID); [|discriminate]. injection HK as <-.
      eexists. split; [reflexivity|]. repeat split. }
  destruct c; rewrite H in *; discriminate.
Qed.

(** X5: [DeletePatient.populate_combos] with a file that has no byte: the
    exception is swallowed, and none of the three boxes is filled, not even
    those whose files hold patients. *)
Theorem populate_combos_fills_nothing_on_empty_file (c : Category) (w : World) :
  files w c = Pd.EmptyFile ->
  fst (DeletePatient_populate_combos w) = Ok tt /\
  same_but_frames w (snd (DeletePatient_populate_combos w)).
Proof.
  intros H. unfold DeletePatient_populate_combos, try_except.
  destruct (three_loads_fail
              (fun samsa tes korttid =>
                 items <- lift (Pd.item_texts (Pd.body samsa)) ;;
                 modify (add_items_d SAMSA items) ;;
                 items <- lift (Pd.item_texts (Pd.body tes)) ;;
                 modify (add_items_d TES items) ;;
                 items <- lift (Pd.item_texts (Pd.body korttid)) ;;
                 modify (add_items_d KORTTID items)) c w H)
    as (w' & Hrun & Hsame).
  rewrite Hrun. cbn. auto.
Qed.

Lemma populate_combos_fills_nothing_on_empty_file_witness :
  fst (DeletePatient_populate_combos
         (world_init (Window_create_files disk_empty_tes))) = Ok tt /\
  same_but_frames (world_init (Window_create_files disk_empty_tes))
    (snd (DeletePatient_populate_combos
            (world_init (Window_create_files disk_empty_tes)))).
Proof.
  apply (@populate_combos_fills_nothing_on_empty_file TES). reflexivity.
Defined.

(** X4: start-up with a data file that exists and has no byte: the delete view
    swallows the [EmptyDataError], the note view reads the same files
    without a handler, so [Window.__init__] raises it and no window is
    built. *)
Theorem start_up_fails_on_empty_file
  (disk : Category -> option Pd.File) (c : Category) :
  disk c = Some Pd.EmptyFile ->
  fst (Window_init disk) = Raise EmptyDataError.
Proof.
  intros H. unfold Window_init.
  set (w0 := world_init (Window_create_files disk)).
  assert (H0 : files w0 c = Pd.EmptyFile).
  { unfold w0, world_init, Window_create_files. cbn [files]. rewrite H.
    reflexivity. }
  unfold bind at 1.
  unfold DeletePatient_populate_combos, try_except.
  destruct (three_loads_fail
              (fun samsa tes korttid =>
                 items <- lift (Pd.item_texts (Pd.body samsa)) ;;
                 modify (add_items_d SAMSA items) ;;
                 items <- lift (Pd.item_texts (Pd.body tes)) ;;
                 modify (add_items_d TES items) ;;
                 items <- lift (Pd.item_texts (Pd.body korttid)) ;;
                 modify (add_items_d KORTTID items)) c w0 H0)
    as (w1 & Hrun1 & Hsame).
  rewrite Hrun1. cbn [is_EmptyDataError ret].
  assert (H1 : files w1 c = Pd.EmptyFile).
  { destruct Hsame as (Hf & _). rewrite Hf. exact H0. }
  unfold UpdateNote_add_items_to_combos.
  destruct (three_loads_fail
              (fun samsa tes korttid =>
                 items <- lift (Pd.item_texts (Pd.body samsa)) ;;
                 modify (add_items_c SAMSA items) ;;
                 items <- lift (Pd.item_texts (Pd.body tes)) ;;
                 modify (add_items_c TES items) ;;
                 items <- lift (Pd.item_texts (Pd.body korttid)) ;;
                 modify (add_items_c KORTTID items)) c w1 H1)
    as (w2 & Hrun & _).
  unfold bind at 1. rewrite Hrun. reflexivity.
Qed.

Lemma start_up_fails_on_empty_file_witness :
  fst (Window_init disk_empty_tes) = Raise EmptyDataError.
Proof.
  apply (@start_up_fails_on_empty_file disk_empty_tes TES). reflexivity.
Defined.

Lemma set_default_values_no_samsa_record w :
  Pd.body (frames w SAMSA) = [] ->
  UpdateNote_set_default_values w = (Ok tt, w).
Proof.
  intros H. unfold UpdateNote_set_default_values, try_except, bind.
  assert (H1 : default_note SAMSA w = (Raise KeyError, w)).
  { unfold default_note, bind, gets, lift.
    unfold Pd.select_eq, Pd.at_. rewrite H. cbn [filter Pd.columns Pd.body find].
    destruct (Pd.col_pos "Personnummer" (Pd.columns (frames w SAMSA)));
      [|reflexivity].
    destruct (Pd.col_pos "Anteckning" (Pd.columns (frames w SAMSA)));
      reflexivity. }
  rewrite H1. reflexivity.
Qed.

(** X6: start-up when samsa.csv has no record: the one [try] of
    [set_default_values] ends at the SAMSA block, so no note field is
    pre-filled, also not those of TES and KORTTID when they hold
    patients with notes. *)
Theorem start_up_without_samsa_record_prefills_no_note
  (disk : Category -> option Pd.File) :
  (forall c f, disk c = Some f -> f <> Pd.EmptyFile /\ seven_columns f) ->
  no_record (Window_create_files disk SAMSA) ->
  forall c, note (snd (Window_init disk)) c = "".
Proof.
  intros H Hno c.
  assert (Hread : forall c, exists df items,
             Pd.read_csv (Window_create_files disk c) = Ok df /\
             Pd.item_texts (Pd.body df) = Ok items).
  { intros c0. destruct (@create_file_readable (disk c0) (H c0)) as [Hne Hs].
    apply seven_columns_readable; assumption. }
  destruct (Hread SAMSA) as (dS & iS & HrS & HiS).
  destruct (Hread TES) as (dT & iT & HrT & HiT).
  destruct (Hread KORTTID) as (dK & iK & HrK & HiK).
  rewrite (@Window_init_readable disk _ _ _ _ _ _ HrS HrT HrK HiS HiT HiK).
  rewrite set_default_values_no_samsa_record.
  - rewrite Display_init_run. reflexivity.
  - cbn. unfold upd. cbn [Category_eqb].
    destruct (Window_create_files disk SAMSA) as [|h [|l ls]];
      try contradiction.
    injection HrS as <-. reflexivity.
Qed.

Lemma start_up_without_samsa_record_prefills_no_note_witness :
  note (snd (Window_init disk_tes_note)) TES = "".
Proof.
  apply (@start_up_without_samsa_record_prefills_no_note disk_tes_note).
  - intros c f. destruct c; intros [= <-].
    split; [discriminate | split; [reflexivity | repeat constructor]].
  - exact I.
Defined.

Lemma slice0_append (p s : string) :
  Py.slice0 (String.length p) (p ++ s) = p.
Proof.
  unfold Py.slice0. induction p as [|a p IH]; simpl.
  - destruct s; reflexivity.
  - now rewrite IH.
Qed.

Lemma length_nonempty (p : string) n : String.length p = S n -> p <> ""%string.
Proof. intros H ->. discriminate. Qed.

Lemma parse_field_Str s : s <> ""%string -> Pd.parse_field s = Pd.Str s.
Proof.
  intros H. unfold Pd.parse_field.
  destruct (String.eqb_spec s ""); [contradiction | reflexivity].
Qed.

(** One block of [set_default_values] on a dataset whose first record has
    an eleven-character personal number and a note. *)
Lemma default_note_first_record c w p n x1 x2 x3 x4 x5 rest s items :
  frames w c
  = Pd.mkDF HEADER
      ((0, [Pd.Str p; x1; x2; x3; x4; x5; Pd.Str n]) :: rest) ->
  patient_c w c = (p ++ s)%string :: items ->
  String.length p = 11 ->
  default_note c w = (Ok tt, set_note c n w).
Proof.
  intros Hf Hp Hl. unfold default_note, bind, gets, lift, modify.
  rewrite Hf, Hp. cbn [hd]. rewrite <- Hl, slice0_append.
  unfold Pd.select_eq. cbn [Pd.columns Pd.body].
  change (Pd.col_pos "Personnummer" HEADER) with (Some 0).
  cbn [filter snd nth Pd.eq_str]. rewrite String.eqb_refl.
  unfold Pd.at_. cbn [Pd.columns Pd.body].
  change (Pd.col_pos "Anteckning" HEADER) with (Some 6).
  cbn [find fst Nat.eqb snd nth]. reflexivity.
Qed.

Section Prefill.

Variable disk : Category -> option Pd.File.
Variables p n : Category -> string.
Hypothesis Hseven :
  forall c f, disk c = Some f -> f <> Pd.EmptyFile /\ seven_columns f.
Hypothesis Hfirst :
  forall c, first_record (Window_create_files disk c) (p c) (n c).
Hypothesis Hp : forall c, String.length (p c) = 11.
Hypothesis Hn : forall c, n c <> ""%string.

Lemma first_record_read c df items :
  Pd.read_csv (Window_create_files disk c) = Ok df ->
  Pd.item_texts (Pd.body df) = Ok items ->
  exists x1 x2 x3 x4 x5 rest s items',
    df = Pd.mkDF HEADER
           ((0, [Pd.Str (p c); x1; x2; x3; x4; x5; Pd.Str (n c)]) :: rest) /\
    items = (p c ++ s)%string :: items'.
Proof.
  destruct (Hfirst c) as (fn & ln & a & e & t & rest & ->).
  intros [= <-]. cbn [map Pd.enumerate Pd.body].
  rewrite (@parse_field_Str _ (@length_nonempty _ _ (Hp c))).
  rewrite (@parse_field_Str _ (@Hn c)).
  cbn [Pd.item_texts Pd.item_text snd Pd.str].
  destruct (Pd.item_texts _) as [ts|e0]; [|discriminate].
  intros [= <-]. repeat eexists.
Qed.


End Prefill.


(** ** The observer methods, run on a readable file *)

Lemma upd_same {A} (f : Category -> A) c v : upd f c v c = v.
Proof. unfold upd. now rewrite Category_eqb_refl. Qed.

Lemma update_d_inv c w w' :
  DeletePatient_update_d c w = (Ok tt, w') ->
  exists df items,
    Pd.read_csv (files w c) = Ok df /\
    Pd.item_texts (Pd.body df) = Ok items /\
    w' = set_patient_d c items
           (set_patient_d c [] (set_frame c df (enter (Update_d c) w))).
Proof.
  unfold DeletePatient_update_d, load, bind, modify, lift, ret.
  cbn [files enter].
  destruct (Pd.read_csv (files w c)) as [df|e] eqn:Hr; [|discriminate].
  destruct (Pd.item_texts (Pd.body df)) as [items|e] eqn:Hi; [|discriminate].
  intros [= <-]. exists df, items. auto.
Qed.

Lemma update_c_inv c w w' :
  UpdateNote_update_c c w = (Ok tt, w') ->
  exists df items rows s,
    Pd.read_csv (files w c) = Ok df /\
    Pd.item_texts (Pd.body df) = Ok items /\
    Pd.select_eq df "Personnummer" (Py.slice0 11 (hd "" items)) = Ok rows /\
    Pd.column_item (Pd.columns df) rows "Anteckning" = Ok (Pd.Str s) /\
    w' = set_note c s
           (set_patient_c c items
              (set_patient_c c [] (set_frame c df (enter (Update_c c) w)))).
Proof.
  unfold UpdateNote_update_c, load, bind, modify, lift, ret, raise.
  cbn [files enter].
  destruct (Pd.read_csv (files w c)) as [df|e] eqn:Hr; [|discriminate].
  destruct (Pd.item_texts (Pd.body df)) as [items|e] eqn:Hi; [|discriminate].
  destruct (Pd.select_eq df "Personnummer" _) as [rows|e] eqn:Hs; [|discriminate].
  destruct (Pd.column_item _ rows "Anteckning") as [[s|]|e] eqn:Hv; try discriminate.
  intros [= <-]. exists df, items, rows, s. auto.
Qed.

Lemma update_table_inv c w w' :
  Display_update_table c w = (Ok tt, w') ->
  exists df,
    Pd.read_csv (files w c) = Ok df /\
    w' = set_table c (Pd.grid df)
           (set_frame c df (set_table c [] (enter (Update_table c) w))).
Proof.
  unfold Display_update_table, load, bind, modify, lift, ret.
  cbn [files enter set_table].
  destruct (Pd.read_csv (files w c)) as [df|e] eqn:Hr; [|discriminate].
  intros [= <-]. exists df. auto.
Qed.

Lemma bind_inv {A B} (m : M World A) (k : A -> M World B) w b w' :
  bind m k w = (Ok b, w') ->
  exists a w1, m w = (Ok a, w1) /\ k a w1 = (Ok b, w').
Proof.
  unfold bind. destruct (m w) as [[a|e] w1]; [eauto | discriminate].
Qed.



(** ** What a save leaves on disk *)

(** The observers never write a file: after a save the file is the frame
    that was saved, whether the notification returns or raises. *)
Lemma save_to_csv_file c skip w :
  files (snd (Data_save_to_csv c skip w)) c = Pd.to_csv (frames w c).
Proof.
  pose proof (@save_to_csv_spec c skip (fun w0 => w0 = w)
                (fun w0 => files w0 c = Pd.to_csv (frames w c))
                (files_stable c _)) as H.
  specialize (H ltac:(intros w0 ->; cbn [files set_file]; apply upd_same)
                ltac:(intros w0 Hw0; rewrite Hw0; discriminate) w eq_refl).
  destruct (Data_save_to_csv c skip w) as [[[]|e] w1]; cbn [snd].
  - exact H.
  - apply H.
Qed.

Lemma snd_try_pass {A} (m : M World A) catches a w :
  snd (try_except m catches (ret a) w) = snd (m w).
Proof.
  unfold try_except, ret. destruct (m w) as [[x|e] w1]; [reflexivity|].
  destruct (catches e); reflexivity.
Qed.

Lemma read_to_csv d :
  Pd.read_csv (Pd.to_csv d)
  = Ok (Pd.mkDF (Pd.columns d)
          (Pd.enumerate 0
             (map (map Pd.parse_field)
                (map (fun r => map Pd.print_field (snd r)) (Pd.body d))))).
Proof. reflexivity. Qed.



Lemma update_d_run c w df items :
  Pd.read_csv (files w c) = Ok df ->
  Pd.item_texts (Pd.body df) = Ok items ->
  DeletePatient_update_d c w
  = (Ok tt, set_patient_d c items
              (set_patient_d c [] (set_frame c df (enter (Update_d c) w)))).
Proof.
  intros Hr Hi. unfold DeletePatient_update_d, load, bind, modify, lift, ret.
  cbn [files enter]. rewrite Hr, Hi. reflexivity.
Qed.

(** The note view on a dataset without a record: the box is emptied, and
    [.item()] on the empty selection raises [ValueError]. *)
Lemma update_c_no_record c w :
  Pd.read_csv (files w c) = Ok (Pd.mkDF HEADER []) ->
  UpdateNote_update_c c w
  = (Raise ValueError,
     set_patient_c c []
       (set_patient_c c []
          (set_frame c (Pd.mkDF HEADER []) (enter (Update_c c) w)))).
Proof.
  intros Hr. unfold UpdateNote_update_c, load, bind, modify, lift, ret.
  cbn [files enter]. rewrite Hr. reflexivity.
Qed.

(** X10: deleting the only patient of a dataset: the file and the two boxes
    are emptied, but the note view raises [ValueError] on the empty
    dataset, the handler of the delete button swallows it, and the grid is
    never told: it still shows the deleted patient. *)
Theorem delete_last_patient_leaves_grid_stale
  (text flag : string) (c : Category) (w : World) (r : nat * list Pd.cell) :
  case_delete_flag flag = Some c ->
  frames w c = Pd.mkDF HEADER [r] ->
  Pd.eq_str (nth 0 (snd r) Pd.NaN) (hd "" (Py.split " " text)) = true ->
  fst (DeletePatient_button_clicked text flag w) = Ok tt /\
  files (snd (DeletePatient_button_clicked text flag w)) c = Pd.Csv HEADER [] /\
  patient_d (snd (DeletePatient_button_clicked text flag w)) c = [] /\
  patient_c (snd (DeletePatient_button_clicked text flag w)) c = [] /\
  table (snd (DeletePatient_button_clicked text flag w)) c = table w c /\
  calls (snd (DeletePatient_button_clicked text flag w))
    = calls w ++ [Update_d c; Update_c c].
Proof.
  intros Hflag Hf Hhit.
  eassert (Hrun : DeletePatient_button_clicked text flag w = (Ok tt, _)).
  { unfold DeletePatient_button_clicked. rewrite Hflag.
    unfold try_except. rewrite bind_gets.
    unfold Pd.select_eq. rewrite Hf. cbn [Pd.columns Pd.body].
    change (Pd.col_pos "Personnummer" HEADER) with (Some 0).
    cbn [filter]. rewrite Hhit. rewrite bind_lift_Ok.
    cbn [Pd.index_item]. rewrite bind_lift_Ok.
    unfold bind at 1, modify at 1.
    unfold Pd.drop. cbn [Pd.columns Pd.body filter existsb].
    rewrite Nat.eqb_refl. cbn [orb negb].
    unfold Data_save_to_csv, Data_notify_observer.
    unfold bind at 1, modify at 1.
    match goal with
    | |- context [bind (DeletePatient_update_d c) _ ?w0] =>
        rewrite (@bind_Ok _ _ _ _ w0 _ _
                   (@update_d_run c w0 (Pd.mkDF HEADER []) []
                      ltac:(cbn [files frames set_file set_frame];
                            rewrite !upd_same; reflexivity)
                      eq_refl))
    end.
    match goal with
    | |- context [bind (UpdateNote_update_c c) _ ?w0] =>
        rewrite (@bind_Raise _ _ _ _ w0 _ _
                   (@update_c_no_record c w0
                      ltac:(cbn [files frames set_file set_frame
                                 set_patient_d enter];
                            rewrite !upd_same; reflexivity)))
    end.
    cbn [is_ValueError ret]. reflexivity. }
  rewrite Hrun.
  cbn [fst snd files frames patient_d patient_c table calls
       set_file set_frame set_patient_d set_patient_c enter].
  rewrite !upd_same. rewrite <- app_assoc. repeat split; reflexivity.
Qed.

Lemma delete_last_patient_leaves_grid_stale_witness :
  fst (DeletePatient_button_clicked "010101-1234 Anna -" "s" world_one) = Ok tt /\
  files (snd (DeletePatient_button_clicked "010101-1234 Anna -" "s" world_one))
        SAMSA = Pd.Csv HEADER [] /\
  patient_d (snd (DeletePatient_button_clicked "010101-1234 Anna -" "s"
                    world_one)) SAMSA = [] /\
  patient_c (snd (DeletePatient_button_clicked "010101-1234 Anna -" "s"
                    world_one)) SAMSA = [] /\
  table (snd (DeletePatient_button_clicked "010101-1234 Anna -" "s" world_one))
        SAMSA = table world_one SAMSA /\
  calls (snd (DeletePatient_button_clicked "010101-1234 Anna -" "s" world_one))
    = calls world_one ++ [Update_d SAMSA; Update_c SAMSA].
Proof.
  apply (@delete_last_patient_leaves_grid_stale "010101-1234 Anna -" "s" SAMSA
           world_one (0, map Pd.Str (example_line "010101-1234" "Anna"))).
  - reflexivity.
  - reflexivity.
  - reflexivity.
Defined.

(** ** What a fresh read shows after an edit *)

Lemma print_parse_eq_str x i :
  i <> ""%string ->
  Pd.eq_str (Pd.parse_field (Pd.print_field x)) i = Pd.eq_str x i.
Proof.
  intros Hi. destruct x as [s|]; [|reflexivity].
  cbn [Pd.print_field]. unfold Pd.parse_field.
  destruct (String.eqb_spec s "") as [->|Hs]; [|reflexivity].
  destruct i; [congruence | reflexivity].
Qed.

Lemma nth_set_nth_other {A} k j (v d : A) l :
  k <> j -> nth j (Pd.set_nth k v l) d = nth j l d.
Proof.
  revert k j. induction l as [|x l IH]; intros [|k] [|j] H; simpl; auto.
  congruence.
Qed.

Lemma nth_set_nth_same {A} k (v d : A) l :
  k < length l -> nth k (Pd.set_nth k v l) d = v.
Proof.
  revert k. induction l as [|x l IH]; intros [|k] H; simpl in *; try lia; auto.
  apply IH. lia.
Qed.

Lemma filter_enumerate_one {A B} (f : A -> B) (p : B -> bool) l a k :
  filter (fun x => p (f x)) l = [a] ->
  exists n, filter (fun r => p (snd r)) (Pd.enumerate k (map f l))
            = [(n, f a)].
Proof.
  revert k. induction l as [|x l IH]; intros k; simpl; [discriminate|].
  destruct (p (f x)) eqn:Hx.
  - intros [= -> Hrest]. exists k. f_equal.
    apply filter_enumerate_nil with (p := p).
    rewrite Forall_map. apply filter_nil_Forall in Hrest. exact Hrest.
  - intros H. apply (IH (S k) H).
Qed.

(** The file that an edit of a note leaves on disk. *)
Lemma edit_note_file
  (values : string * string) (flag : string) (c : Category) (w : World)
  (r : nat * list Pd.cell) :
  case_note_flag flag = Some c ->
  Pd.select_eq (frames w c) "Personnummer" (Py.slice0 11 (fst values))
    = Ok [r] ->
  files (snd (UpdateNote_button_clicked values flag w)) c
  = Pd.to_csv (Pd.set_at (frames w c) (fst r) "Anteckning"
                 (Pd.Str (or_dash (snd values)))).
Proof.
  intros Hflag Hsel.
  unfold UpdateNote_button_clicked. rewrite Hflag, snd_try_pass.
  rewrite bind_gets. rewrite Hsel, bind_lift_Ok.
  cbn [Pd.index_item]. rewrite bind_lift_Ok.
  unfold bind at 1, modify at 1.
  rewrite save_to_csv_file. cbn [frames set_frame]. now rewrite upd_same.
Qed.

(** A note set on the one row of a key, written and read again. *)
Lemma set_at_reread (d : Pd.DataFrame) (key s : string)
  (r : nat * list Pd.cell) :
  wf_frame d -> key <> ""%string -> s <> ""%string ->
  Pd.select_eq d "Personnummer" key = Ok [r] ->
  exists df r',
    Pd.read_csv (Pd.to_csv (Pd.set_at d (fst r) "Anteckning" (Pd.Str s)))
      = Ok df /\
    Pd.select_eq df "Personnummer" key = Ok [r'] /\
    Pd.column_item (Pd.columns df) [r'] "Anteckning" = Ok (Pd.Str s).
Proof.
  intros [Hcols Hrows] Hkey Hs Hsel.
  set (v := Pd.Str s).
  rewrite read_to_csv.
  unfold Pd.set_at. rewrite Hcols.
  change (Pd.col_pos "Anteckning" HEADER) with (Some 6).
  cbn [Pd.columns Pd.body].
  unfold Pd.select_eq in Hsel. rewrite Hcols in Hsel.
  change (Pd.col_pos "Personnummer" HEADER) with (Some 0) in Hsel.
  injection Hsel as Hsel.
  set (g := fun r0 : nat * list Pd.cell =>
              if Nat.eqb (fst r0) (fst r)
              then (fst r0, Pd.set_nth 6 v (snd r0)) else r0).
  set (f := fun r0 : nat * list Pd.cell =>
              map Pd.parse_field (map Pd.print_field (snd (g r0)))).
  assert (Hone : filter (fun r0 => Pd.eq_str (nth 0 (f r0) Pd.NaN) key)
                        (Pd.body d) = [r]).
  { rewrite <- Hsel. apply filter_ext. intros r0. unfold f.
    rewrite map_map. rewrite <- parse_print_NaN.
    rewrite (map_nth (fun x => Pd.parse_field (Pd.print_field x))).
    rewrite print_parse_eq_str by exact Hkey. unfold g.
    destruct (Nat.eqb (fst r0) (fst r)); [|reflexivity].
    cbn [snd]. now rewrite nth_set_nth_other by lia. }
  destruct (@filter_enumerate_one _ _ f
              (fun cells => Pd.eq_str (nth 0 cells Pd.NaN) key)
              (Pd.body d) r 0 Hone) as (n & Hn).
  eexists. exists (n, f r). split; [reflexivity|]. split.
  - unfold Pd.select_eq. cbn [Pd.columns Pd.body].
    change (Pd.col_pos "Personnummer" HEADER) with (Some 0).
    rewrite !map_map. f_equal. exact Hn.
  - unfold Pd.column_item. cbn [Pd.columns].
    change (Pd.col_pos "Anteckning" HEADER) with (Some 6).
    cbn [snd]. unfold f, g. rewrite Nat.eqb_refl. cbn [snd].
    rewrite map_map. rewrite <- parse_print_NaN.
    rewrite (map_nth (fun x => Pd.parse_field (Pd.print_field x))).
    rewrite nth_set_nth_same.
    + unfold v. rewrite parse_print_Str by exact Hs. reflexivity.
    + assert (Hin : In r (Pd.body d)).
      { eapply proj1. eapply filter_In. rewrite Hsel. left. reflexivity. }
      rewrite Forall_forall in Hrows. rewrite (Hrows r Hin). lia.
Qed.



Lemma nth_map_lt {A B} (F : A -> B) l n d d' :
  n < length l -> nth n (map F l) d' = F (nth n l d).
Proof.
  intros H. rewrite (nth_indep _ d' (F d)) by now rewrite length_map.
  apply map_nth.
Qed.

Lemma nth_enumerate {A} (l : list A) k n d j :
  n < length l -> nth n (Pd.enumerate k l) (j, d) = (k + n, nth n l d).
Proof.
  revert k n. induction l as [|x l IH]; intros k [|n] H; simpl in *; try lia.
  - now rewrite Nat.add_0_r.
  - rewrite IH by lia. f_equal. lia.
Qed.

Lemma map_snd_enumerate {A B} (h : A -> B) l k :
  map (fun r => h (snd r)) (Pd.enumerate k l) = map h l.
Proof.
  revert k. induction l as [|x l IH]; intros k; simpl; [reflexivity|].
  now rewrite IH.
Qed.

Lemma valid_text_nonempty column text :
  Display_check_if_valid column text = Some true ->
  text <> ""%string /\ column < 7.
Proof.
  intros H. split.
  - intros ->. do 7 (destruct column as [|column]; try discriminate).
  - do 7 (destruct column as [|column]; try lia). discriminate.
Qed.



Lemma when_change_table_calls c w :
  table (snd (Data_when_change_has_been_made_directly_on_table c w)) = table w /\
  (calls (snd (Data_when_change_has_been_made_directly_on_table c w))
     = calls w ++ [Update_d c] \/
   calls (snd (Data_when_change_has_been_made_directly_on_table c w))
     = calls w ++ [Update_d c; Update_c c]).
Proof.
  unfold Data_when_change_has_been_made_directly_on_table. unfold_run.
  repeat (case_inner; cbn [fst snd]);
    cbn [table calls set_frame set_patient_d set_patient_c set_note enter];
    rewrite <- ?app_assoc; auto.
Qed.

(** X13: a grid edit never refreshes a grid: whatever the value, the three
    grids keep what they showed, and of the observer methods only those of
    the delete view and of the note view are called, in this order. *)
Theorem cell_edit_refreshes_no_grid
  (row column : nat) (text t : string) (w : World) :
  table (snd (Display_cell_changed row column text t w)) = table w /\
  (calls (snd (Display_cell_changed row column text t w)) = calls w \/
   exists c,
     case_table_flag t = Some c /\
     (calls (snd (Display_cell_changed row column text t w))
        = calls w ++ [Update_d c] \/
      calls (snd (Display_cell_changed row column text t w))
        = calls w ++ [Update_d c; Update_c c])).
Proof.
  unfold Display_cell_changed.
  destruct (negb _); [cbn; auto|].
  destruct (case_table_flag t) as [c|]; [|cbn; auto].
  rewrite bind_gets.
  destruct (Pd.set_iat (frames w c) row column (Pd.Str text)) as [df|e];
    [|cbn; auto].
  rewrite bind_lift_Ok. unfold bind at 1, modify at 1.
  unfold Data_save_to_csv. unfold bind at 1, modify at 1.
  match goal with
  | |- context [Data_when_change_has_been_made_directly_on_table c ?w0] =>
      destruct (when_change_table_calls c w0) as [Ht Hc]
  end.
  split; [exact Ht|]. right. exists c. split; [reflexivity|]. exact Hc.
Qed.

(** ** Sorting *)

(** X14: a sort button changes the frame and the grid only: no file is
    written, no observer method is called, and the boxes and the note
    fields keep their content, whatever [sort_values] returns and also when
    the read raises. *)
Theorem sort_is_a_view_operation
  (sort_values : list string -> Pd.DataFrame -> Pd.DataFrame)
  (flag1 flag2 : string) (w : World) :
  same_but_frames_and_grids w
    (snd (Display_button_clicked sort_values flag1 flag2 w)).
Proof.
  unfold Display_button_clicked, same_but_frames_and_grids.
  destruct (case_table_flag flag1) as [c|]; [|cbn; auto 10].
  rewrite bind_gets. unfold bind at 1, modify at 1.
  destruct (case_sort_flag flag2) as [by_|]; [|cbn; auto 10].
  unfold bind, modify. cbn [files set_table].
  destruct (Pd.read_csv (files w c)) as [df|e]; cbn; auto 10.
Qed.

(** ** The form and the grid *)

(** X15: what the form stores, the grid accepts: for a form whose personal
    number passes the validator, the text the grid shows in each editable
    column of the new record passes the rule of that column. *)
Theorem form_values_pass_grid_validation (f : Form) (column : nat) :
  check_format_personal_nr (personal_nr f) = true ->
  In column [0; 1; 2; 3; 4; 6] ->
  Display_check_if_valid column (nth column (grid_texts f) "") = Some true.
Proof.
  intros Hfmt Hin. unfold grid_texts, values_dict, ADDPatient_connect_button.
  cbn [map Pd.str Personnummer Fornamn Efternamn Omrade Inskriven Typ
       Anteckning].
  assert (Hd : forall s, negb (String.eqb (or_dash s) "") = true).
  { intros s. apply negb_true_iff, String.eqb_neq, or_dash_nonempty. }
  simpl in Hin.
  destruct Hin as [<-|[<-|[<-|[<-|[<-|[<-|[]]]]]]];
    cbn [nth Display_check_if_valid].
  - now rewrite Hfmt.
  - now rewrite Hd.
  - now rewrite Hd.
  - destruct (area f); reflexivity.
  - destruct (enrolled f); reflexivity.
  - now rewrite Hd.
Qed.

Lemma form_values_pass_grid_validation_witness :
  Display_check_if_valid 3 (nth 3 (grid_texts form_new) "") = Some true.
Proof.
  apply (@form_values_pass_grid_validation form_new 3).
  - reflexivity.
  - simpl. tauto.
Defined.

(** ** The personal number as the key of the delete view and the note view *)


Lemma list_ascii_app (a b : string) :
  list_ascii_of_string (a ++ b) = list_ascii_of_string a ++ list_ascii_of_string b.
Proof. induction a as [|x a IH]; simpl; [reflexivity | now rewrite IH]. Qed.

Lemma digits_no_space a : all_digits a = true -> no_space a = true.
Proof.
  unfold all_digits, no_space. rewrite !forallb_forall. intros H ch Hin.
  specialize (H ch Hin). destruct (Ascii.eqb_spec ch " "%char) as [->|];
    [discriminate | reflexivity].
Qed.

Lemma no_space_app a b :
  no_space a = true -> no_space b = true -> no_space (a ++ b) = true.
Proof.
  unfold no_space. rewrite list_ascii_app, forallb_app. intros -> ->.
  reflexivity.
Qed.

Lemma exact_format_no_space p : exact_format p -> no_space p = true.
Proof.
  intros (a & b & -> & _ & _ & Ha & Hb).
  apply no_space_app; [apply digits_no_space, Ha|].
  apply no_space_app; [reflexivity | apply digits_no_space, Hb].
Qed.

Lemma accepted_no_space p :
  check_format_personal_nr p = true -> no_space p = true.
Proof.
  intros H. apply check_format_personal_nr_spec in H.
  destruct H as [H | (t & Ht & ->)].
  - apply exact_format_no_space, H.
  - apply no_space_app; [apply exact_format_no_space, Ht | reflexivity].
Qed.

Lemma split_head p rest :
  no_space p = true ->
  hd ""%string (Py.split " " (p ++ String " " rest)) = p.
Proof.
  unfold no_space. induction p as [|a p IH]; intros H.
  - reflexivity.
  - simpl in H. apply andb_true_iff in H. destruct H as [Ha Hp].
    apply negb_true_iff in Ha. cbn [append Py.split]. rewrite Ha.
    specialize (IH Hp).
    destruct (Py.split " " (p ++ String " " rest)) as [|x xs];
      cbn [hd] in *; now subst.
Qed.

(** X16: the two ways a personal number is cut out of an item of a box, for
    a record whose number the validator accepts: the delete view (up to
    the first space) always gets the stored number; the note view (the
    first eleven characters) gets it exactly when the number has no
    trailing newline. *)
Theorem item_text_keys
  (k : nat) (p : string) (x1 x2 : Pd.cell) (more : list Pd.cell)
  (text : string) :
  check_format_personal_nr p = true ->
  Pd.item_text (k, Pd.Str p :: x1 :: x2 :: more) = Ok text ->
  hd ""%string (Py.split " " text) = p /\
  (Py.slice0 11 text = p <-> exact_format p).
Proof.
  intros Hfmt [= <-]. cbn [Pd.str]. split.
  - apply split_head, accepted_no_space, Hfmt.
  - apply check_format_personal_nr_spec in Hfmt.
    destruct Hfmt as [H | (t & Ht & ->)].
    + split; [auto|]. intros _.
      rewrite <- (exact_format_length H). apply slice0_append.
    + pose proof (exact_format_length Ht) as Hl.
      rewrite append_assoc'. rewrite <- Hl at 1. rewrite slice0_append.
      split.
      * intros Heq. apply (f_equal String.length) in Heq.
        rewrite append_length in Heq. simpl in Heq. lia.
      * intros Hex. apply exact_format_length in Hex.
        rewrite append_length in Hex. simpl in Hex. lia.
Qed.

Lemma item_text_keys_witness :
  hd ""%string (Py.split " " "010101-1234 Anna -") = "010101-1234"%string /\
  (Py.slice0 11 "010101-1234 Anna -" = "010101-1234"%string
   <-> exact_format "010101-1234").
Proof.
  apply (@item_text_keys 0 "010101-1234" (Pd.Str "Anna") (Pd.Str "-") []
           "010101-1234 Anna -").
  - reflexivity.
  - reflexivity.
Defined.

(** ** The bulk update: what it leaves in samsa.csv *)

Lemma cell_eqb_eq a b : Pd.cell_eqb a b = true <-> a = b.
Proof.
  destruct a as [s|], b as [t|]; simpl; split; intros H;
    try discriminate; try reflexivity.
  - apply String.eqb_eq in H. now subst.
  - injection H as ->. apply String.eqb_refl.
Qed.

Lemma cell_mem_In x l : cell_mem x l = true <-> In x l.
Proof.
  unfold cell_mem. rewrite existsb_exists. split.
  - intros (y & Hy & He). apply cell_eqb_eq in He. now subst.
  - intros H. exists x. split; [exact H | now apply cell_eqb_eq].
Qed.

Lemma In_dedup x l : In x (dedup l) <-> In x l.
Proof.
  induction l as [|y l IH]; simpl; [tauto|].
  rewrite filter_In, IH. split.
  - intros [H | [H _]]; auto.
  - intros [H | H]; auto.
    destruct (Pd.cell_eqb x y) eqn:He.
    + apply cell_eqb_eq in He. auto.
    + right. split; auto.
Qed.

Lemma find_NoDup (body : list (nat * list Pd.cell)) r :
  NoDup (map fst body) -> In r body ->
  find (fun r0 => Nat.eqb (fst r0) (fst r)) body = Some r.
Proof.
  induction body as [|x body IH]; simpl; [tauto|].
  intros Hnd [-> | Hin].
  - now rewrite Nat.eqb_refl.
  - inversion Hnd as [|? ? Hx Hnd']; subst.
    destruct (Nat.eqb_spec (fst x) (fst r)) as [He|_].
    + exfalso. apply Hx. rewrite He. apply in_map, Hin.
    + apply IH; assumption.
Qed.

Lemma at_row df r :
  Pd.columns df = HEADER -> NoDup (map fst (Pd.body df)) ->
  In r (Pd.body df) ->
  Pd.at_ df (fst r) "Personnummer" = Ok (nth 0 (snd r) Pd.NaN).
Proof.
  intros Hc Hnd Hin. unfold Pd.at_. rewrite Hc.
  change (Pd.col_pos "Personnummer" HEADER) with (Some 0).
  now rewrite (@find_NoDup _ _ Hnd Hin).
Qed.

Lemma select_labels_rows df D rows :
  Pd.columns df = HEADER -> NoDup (map fst (Pd.body df)) ->
  incl rows (Pd.body df) ->
  select_labels df D (map fst rows)
  = Ok (map fst (filter (fun r => cell_mem (nth 0 (snd r) Pd.NaN) D) rows)).
Proof.
  intros Hc Hnd. induction rows as [|r rows IH]; intros Hin; simpl.
  - reflexivity.
  - rewrite (@at_row df r Hc Hnd (Hin r (or_introl eq_refl))).
    rewrite IH by (intros x Hx; apply Hin; right; exact Hx).
    destruct (cell_mem _ D); reflexivity.
Qed.

Lemma drop_selected df D :
  NoDup (map fst (Pd.body df)) ->
  Pd.body (Pd.drop
             (map fst (filter (fun r => cell_mem (nth 0 (snd r) Pd.NaN) D)
                              (Pd.body df))) df)
  = filter (fun r => negb (cell_mem (nth 0 (snd r) Pd.NaN) D)) (Pd.body df).
Proof.
  intros Hnd. unfold Pd.drop. cbn [Pd.body].
  apply filter_ext_in. intros r Hr. f_equal.
  apply eq_true_iff_eq. rewrite existsb_exists. split.
  - intros (i & Hi & He). apply Nat.eqb_eq in He. subst i.
    apply in_map_iff in Hi. destruct Hi as (r' & Hf & Hr').
    apply filter_In in Hr'. destruct Hr' as [Hin' Hp].
    assert (r' = r).
    { pose proof (@find_NoDup _ _ Hnd Hr) as H1.
      pose proof (@find_NoDup _ _ Hnd Hin') as H2.
      rewrite Hf in H2. congruence. }
    now subst.
  - intros Hp. exists (fst r). split; [|apply Nat.eqb_refl].
    apply in_map. apply filter_In. auto.
Qed.

Section BulkUpdate.

Variable set_order : list Pd.cell -> list Pd.cell.
Hypothesis set_order_perm : forall l, Permutation (set_order l) l.

Lemma In_set_difference x a b :
  In x (set_difference set_order a b) <-> In x a /\ cell_mem x b = false.
Proof.
  unfold set_difference. split.
  - intros H. apply (Permutation_in _ (set_order_perm _)) in H.
    apply filter_In in H. destruct H as [H1 H2].
    apply (proj1 (In_dedup _ _)) in H1. apply negb_true_iff in H2. auto.
  - intros [H1 H2].
    apply (Permutation_in _ (Permutation_sym (set_order_perm _))).
    apply filter_In. split; [apply (proj2 (In_dedup _ _)), H1 | now apply negb_true_iff].
Qed.

(** The rows that the first half of the bulk update keeps. *)
Lemma discharge_keeps df values lst :
  Pd.columns df = HEADER -> NoDup (map fst (Pd.body df)) ->
  Pd.tolist df "Personnummer" = Ok lst ->
  exists indexes,
    select_labels df (set_difference set_order lst (map Pd.Str values))
                  (map fst (Pd.body df)) = Ok indexes /\
    lines_of (Pd.reset_index (Pd.drop indexes df)) = kept_lines values df.
Proof.
  intros Hc Hnd Hl. unfold Pd.tolist in Hl. rewrite Hc in Hl.
  change (Pd.col_pos "Personnummer" HEADER) with (Some 0) in Hl.
  injection Hl as <-.
  set (D := set_difference set_order _ _).
  eexists. split.
  - apply select_labels_rows; auto. intros x Hx. exact Hx.
  - unfold lines_of, kept_lines, lines_of, Pd.reset_index.
    cbn [Pd.body Pd.columns]. rewrite map_snd_enumerate.
    rewrite (@drop_selected df D Hnd). rewrite map_map. f_equal.
    apply filter_ext_in. intros r Hr. unfold number_in.
    set (x := nth 0 (snd r) Pd.NaN).
    assert (Hx : In x (map (fun r0 : nat * list Pd.cell =>
                              nth 0 (snd r0) Pd.NaN) (Pd.body df)))
      by (apply (in_map (fun r0 : nat * list Pd.cell =>
                           nth 0 (snd r0) Pd.NaN)), Hr).
    destruct (cell_mem x (map Pd.Str values)) eqn:HV.
    + destruct (cell_mem x D) eqn:HD; [|reflexivity].
      apply cell_mem_In, In_set_difference in HD. destruct HD as [_ HD].
      congruence.
    + assert (HD : cell_mem x D = true)
        by (apply cell_mem_In, In_set_difference; auto).
      now rewrite HD.
Qed.

End BulkUpdate.

Lemma print_parse s : Pd.print_field (Pd.parse_field s) = s.
Proof.
  unfold Pd.parse_field. destruct (String.eqb_spec s "") as [->|];
    reflexivity.
Qed.

Lemma lines_of_read h ls :
  lines_of (Pd.mkDF h (Pd.enumerate 0 (map (map Pd.parse_field) ls))) = ls.
Proof.
  unfold lines_of. cbn [Pd.body]. rewrite map_snd_enumerate, map_map.
  rewrite <- (map_id ls) at 2. apply map_ext. intros l.
  rewrite map_map. rewrite <- (map_id l) at 2. apply map_ext, print_parse.
Qed.

Lemma reindex_seven cells :
  length cells = 7 -> Pd.reindex_row HEADER HEADER cells = cells.
Proof.
  intros H. rewrite reindex_HEADER.
  do 8 (destruct cells as [|? cells]; try discriminate). reflexivity.
Qed.

Lemma lines_of_concat a b :
  wf_frame a -> wf_frame b ->
  lines_of (Pd.concat a b) = lines_of a ++ lines_of b.
Proof.
  intros [Ha Hra] [Hb Hrb]. unfold Pd.concat, lines_of. rewrite Ha, Hb.
  change (HEADER ++ filter (fun c => negb (Py.mem c HEADER)) HEADER)
    with HEADER.
  cbn [Pd.body]. rewrite map_app, !map_map. cbn [snd].
  f_equal; apply map_ext_in; intros r Hr; f_equal; apply reindex_seven.
  - rewrite Forall_forall in Hra. auto.
  - rewrite Forall_forall in Hrb. auto.
Qed.

Lemma kept_lines_seven values d :
  wf_frame d -> Forall (fun l => length l = 7) (kept_lines values d).
Proof.
  intros [_ Hr]. unfold kept_lines, lines_of. cbn [Pd.body].
  rewrite Forall_map. apply Forall_forall. intros r Hin.
  apply filter_In in Hin. rewrite Forall_forall in Hr.
  rewrite length_map. apply Hr, Hin.
Qed.

Lemma placeholder_lines_seven values extra :
  Forall (fun l => exists v, In v values /\ l = placeholder_line v) extra ->
  Forall (fun l : list string => length l = 7) extra.
Proof.
  intros H. eapply Forall_impl; [|exact H].
  intros l (v & _ & ->). reflexivity.
Qed.

Lemma reconciling_stable values d :
  wf_frame d -> stable SAMSA (reconciling values d).
Proof.
  intros Hd. split; try (intros; assumption).
  intros df w [HJ _] Hr. split; [exact HJ|].
  destruct HJ as (extra & Hf & Hex). rewrite Hf in Hr. injection Hr as <-.
  cbn [frames set_frame]. rewrite upd_same. split.
  - split; [reflexivity|]. cbn [Pd.body].
    apply Forall_enumerate with (P := fun l : list Pd.cell => length l = 7).
    rewrite Forall_map. apply Forall_app. split.
    + eapply Forall_impl; [|apply (@kept_lines_seven values d Hd)].
      intros l. now rewrite length_map.
    + eapply Forall_impl; [|apply (@placeholder_lines_seven values extra Hex)].
      intros l. now rewrite length_map.
  - exists extra. split; [apply lines_of_read | exact Hex].
Qed.

Lemma reconciling_save values d w :
  wf_frame (frames w SAMSA) ->
  (exists extra,
     lines_of (frames w SAMSA) = kept_lines values d ++ extra /\
     Forall (fun l => exists v, In v values /\ l = placeholder_line v) extra) ->
  reconciling values d (set_file SAMSA (Pd.to_csv (frames w SAMSA)) w).
Proof.
  intros Hwf (extra & Hl & Hex). split; [|split].
  - exists extra. split; [|exact Hex].
    cbn [files set_file]. rewrite upd_same. unfold Pd.to_csv.
    fold (lines_of (frames w SAMSA)). rewrite (proj1 Hwf), Hl. reflexivity.
  - exact Hwf.
  - exists extra. auto.
Qed.

Section BulkUpdateFile.

Variable set_order : list Pd.cell -> list Pd.cell.
Hypothesis set_order_perm : forall l, Permutation (set_order l) l.


End BulkUpdateFile.


(** ** Appending and the records already stored *)



(** ** The bulk update and its input *)

(** X19: one entry of the list that fails the pattern rejects the whole list:
    nothing is removed, added, saved or shown, and the text stays in the
    box.  The empty text is such a list. *)
Theorem bulk_update_rejects_malformed_list
  (set_order : list Pd.cell -> list Pd.cell) (text v : string) (w : World) :
  In v (Py.split "," (Py.remove_char " " text)) ->
  check_format_personal_nr v = false ->
  UpdateSamsa_button_clicked set_order text w = (Ok tt, w).
Proof.
  intros Hin Hbad. unfold UpdateSamsa_button_clicked.
  destruct (forallb Re.match_personal_nr _) eqn:Hall; [|reflexivity].
  rewrite forallb_forall in Hall. specialize (Hall v Hin).
  unfold check_format_personal_nr in Hbad. congruence.
Qed.

Lemma bulk_update_rejects_malformed_list_witness :
  UpdateSamsa_button_clicked (fun l => l) "" world_two = (Ok tt, world_two).
Proof.
  apply (@bulk_update_rejects_malformed_list (fun l => l) "" "" world_two).
  - simpl. auto.
  - reflexivity.
Defined.

(** ** The frames stay in step with the files *)

Lemma Category_eqb_eq c c' : Category_eqb c c' = true -> c = c'.
Proof. destruct c, c'; simpl; congruence. Qed.

Lemma in_step_load c df w :
  others_in_step c w -> Pd.read_csv (files w c) = Ok df ->
  all_in_step (set_frame c df w).
Proof.
  intros Ho Hr c' df' Hr'. cbn [files frames set_frame] in *. unfold upd.
  destruct (Category_eqb c' c) eqn:He.
  - apply Category_eqb_eq in He. subst c'. congruence.
  - apply Ho; [|exact Hr']. intros ->. now rewrite Category_eqb_refl in He.
Qed.

Lemma all_in_step_stable c : stable c all_in_step.
Proof.
  split; try (intros; assumption).
  intros df w H Hr. apply in_step_load; [|exact Hr]. intros c' _. apply H.
Qed.

Lemma update_d_in_step c w :
  files w c <> Pd.EmptyFile -> others_in_step c w ->
  all_in_step (snd (DeletePatient_update_d c w)).
Proof.
  intros Hne Ho. unfold DeletePatient_update_d, load, bind, modify, lift, ret.
  cbn [files enter].
  destruct (Pd.read_csv (files w c)) as [df|e] eqn:Hr.
  2:{ destruct (files w c); [congruence | discriminate]. }
  assert (H : all_in_step (set_frame c df (enter (Update_d c) w)))
    by (apply in_step_load; assumption).
  destruct (Pd.item_texts (Pd.body df)); exact H.
Qed.

(** A save brings the frame of its dataset in step with the file, also
    when an observer raises: the delete view, which is notified first,
    reads the file that was just written. *)
Lemma save_in_step c skip :
  hoare (others_in_step c) (Data_save_to_csv c skip)
    (fun _ => all_in_step) (fun _ => all_in_step).
Proof.
  intros w Ho. unfold Data_save_to_csv. unfold bind at 1, modify at 1.
  set (w0 := set_file c (Pd.to_csv (frames w c)) w).
  assert (H0 : all_in_step (snd (DeletePatient_update_d c w0))).
  { apply update_d_in_step.
    - unfold w0. cbn [files set_file]. rewrite upd_same. discriminate.
    - intros c' Hne df Hr. unfold w0 in *. cbn [files frames set_file] in *.
      unfold upd in Hr. rewrite (Category_eqb_neq Hne) in Hr.
      apply (Ho c' Hne df Hr). }
  pose proof (@update_c_spec c all_in_step (all_in_step_stable c)) as Hc.
  pose proof (@update_table_spec c all_in_step (all_in_step_stable c)) as Ht.
  destruct skip.
  - unfold Data_when_change_has_been_made_directly_on_table, bind.
    destruct (DeletePatient_update_d c w0) as [[[]|e] w1]; cbn [snd] in H0;
      [|exact H0].
    specialize (Hc w1 H0).
    destruct (UpdateNote_update_c c w1) as [[[]|e] w2]; [exact Hc | apply Hc].
  - unfold Data_notify_observer, bind.
    destruct (DeletePatient_update_d c w0) as [[[]|e] w1]; cbn [snd] in H0;
      [|exact H0].
    specialize (Hc w1 H0).
    destruct (UpdateNote_update_c c w1) as [[[]|e] w2]; [|apply Hc].
    specialize (Ht w2 Hc).
    destruct (Display_update_table c w2) as [[[]|e] w3]; [exact Ht | apply Ht].
Qed.

Lemma others_in_step_set_frame c v w :
  all_in_step w -> others_in_step c (set_frame c v w).
Proof.
  intros H c' Hne df Hr. cbn [files frames set_frame] in *. unfold upd.
  rewrite (Category_eqb_neq Hne). apply (H c' df Hr).
Qed.

Lemma set_frame_save_in_step c v skip :
  preserves all_in_step
    (modify (set_frame c v) ;; Data_save_to_csv c skip).
Proof.
  eapply hoare_bind with (R := fun _ => others_in_step c).
  - apply hoare_modify. intros w H. apply others_in_step_set_frame, H.
  - intros ?. apply save_in_step.
Qed.

Ltac in_step_steps :=
  repeat (apply preserves_bind;
          [first [apply preserves_gets | apply preserves_lift] | intros ?]);
  apply set_frame_save_in_step.

Lemma ADDPatient_button_clicked_in_step values :
  preserves all_in_step (ADDPatient_button_clicked values).
Proof.
  unfold ADDPatient_button_clicked.
  destruct (check_format_personal_nr _); [|apply preserves_ret].
  destruct (case_Typ _) as [c|]; [|apply preserves_ret].
  apply preserves_try; [|apply set_frame_save_in_step].
  apply preserves_bind; [apply preserves_load, all_in_step_stable|].
  intros df. apply set_frame_save_in_step.
Qed.

Lemma DeletePatient_button_clicked_in_step text flag :
  preserves all_in_step (DeletePatient_button_clicked text flag).
Proof.
  unfold DeletePatient_button_clicked.
  destruct (case_delete_flag flag) as [c|]; [|apply preserves_ret].
  apply preserves_try; [|apply preserves_ret]. in_step_steps.
Qed.

Lemma UpdateNote_button_clicked_in_step values flag :
  preserves all_in_step (UpdateNote_button_clicked values flag).
Proof.
  unfold UpdateNote_button_clicked.
  destruct (case_note_flag flag) as [c|]; [|apply preserves_ret].
  apply preserves_try; [|apply preserves_ret]. in_step_steps.
Qed.

Lemma Display_cell_changed_in_step row column text t :
  preserves all_in_step (Display_cell_changed row column text t).
Proof.
  unfold Display_cell_changed.
  destruct (negb _); [apply preserves_ret|].
  destruct (case_table_flag t) as [c|]; [|apply preserves_ret].
  in_step_steps.
Qed.

Lemma UpdateSamsa_button_clicked_in_step set_order text :
  preserves all_in_step (UpdateSamsa_button_clicked set_order text).
Proof.
  unfold UpdateSamsa_button_clicked. cbv zeta.
  destruct (forallb _ _); [|apply preserves_ret].
  apply preserves_bind; [apply preserves_gets|]. intros df.
  apply preserves_bind; [apply preserves_lift|]. intros lst.
  apply preserves_bind; [apply preserves_lift|]. intros indexes.
  eapply hoare_bind with (R := fun _ => others_in_step SAMSA).
  { apply hoare_modify. intros w H. apply others_in_step_set_frame, H. }
  intros ?. eapply hoare_bind; [apply save_in_step|].
  intros ?. apply preserves_bind;
    [apply preserves_load, all_in_step_stable|].
  intros df'. eapply hoare_bind with (R := fun _ => others_in_step SAMSA).
  { unfold Pd.from_data.
    change (length (placeholder ?x)) with 7.
    destruct (Nat.eqb 7 (length (Pd.columns df'))).
    - eapply hoare_conseq
        with (P' := others_in_step SAMSA)
             (Q' := fun _ => others_in_step SAMSA)
             (E' := fun _ => all_in_step); auto.
      + apply hoare_for_each. intros item _.
        eapply hoare_bind with (R := fun _ => others_in_step SAMSA).
        * apply hoare_lift. auto.
        * intros e. apply hoare_modify. intros w H c' Hne df0 Hr.
          cbn [files frames set_frame] in *. unfold upd.
          rewrite (Category_eqb_neq Hne). apply (H c' Hne df0 Hr).
      + intros w H c' _. apply H.
    - eapply hoare_conseq
        with (P' := all_in_step) (Q' := fun _ => all_in_step)
             (E' := fun _ => all_in_step); auto.
      + apply hoare_for_each. intros item _.
        eapply hoare_bind with (R := fun _ _ => False).
        * apply hoare_lift. auto.
        * intros e w [].
      + intros ? w H c' _. apply H. }
  intros ?. eapply hoare_bind; [apply save_in_step|].
  intros ?. apply preserves_bind; [apply preserves_modify; auto|].
  intros ?. apply preserves_modify; auto.
Qed.

(** X20: every operation of the store keeps the frames in step with the files:
    when each frame is what a fresh read of its file gives, this holds
    again after the operation, whether it returns or raises.  (A sort is
    not among the operations: it leaves the frame sorted and the file as it
    was.) *)
Theorem operations_keep_frames_in_step
  (set_order : list Pd.cell -> list Pd.cell) (o : Operation) (w : World) :
  all_in_step w -> all_in_step (snd (perform set_order o w)).
Proof.
  intros H. apply preserves_run; [|exact H].
  destruct o; simpl.
  - apply ADDPatient_button_clicked_in_step.
  - apply DeletePatient_button_clicked_in_step.
  - apply UpdateNote_button_clicked_in_step.
  - apply Display_cell_changed_in_step.
  - apply UpdateSamsa_button_clicked_in_step.
Qed.

Lemma operations_keep_frames_in_step_witness :
  all_in_step
    (snd (perform (fun l => l) (Delete "010101-1234 Anna -" "s") world_two)).
Proof.
  apply (@operations_keep_frames_in_step (fun l => l)
           (Delete "010101-1234 Anna -" "s") world_two).
  intros c df H. destruct c; vm_compute in H; injection H as <-; reflexivity.
Defined.

(** ** Selecting a patient in the note view *)



(** ** When the fan-out reaches the grid *)

Lemma update_c_run c w df items rows s :
  Pd.read_csv (files w c) = Ok df ->
  Pd.item_texts (Pd.body df) = Ok items ->
  Pd.select_eq df "Personnummer" (Py.slice0 11 (hd "" items)) = Ok rows ->
  Pd.column_item (Pd.columns df) rows "Anteckning" = Ok (Pd.Str s) ->
  UpdateNote_update_c c w
  = (Ok tt, set_note c s
              (set_patient_c c items
                 (set_patient_c c []
                    (set_frame c df (enter (Update_c c) w))))).
Proof.
  intros Hr Hi Hs Hv.
  unfold UpdateNote_update_c, load, bind, modify, lift, ret.
  cbn [files enter]. rewrite Hr, Hi, Hs, Hv. reflexivity.
Qed.

Lemma update_c_raises c w df items rows e :
  Pd.read_csv (files w c) = Ok df ->
  Pd.item_texts (Pd.body df) = Ok items ->
  Pd.select_eq df "Personnummer" (Py.slice0 11 (hd "" items)) = Ok rows ->
  Pd.column_item (Pd.columns df) rows "Anteckning" = Raise e ->
  UpdateNote_update_c c w
  = (Raise e, set_patient_c c items
                (set_patient_c c []
                   (set_frame c df (enter (Update_c c) w)))).
Proof.
  intros Hr Hi Hs Hv.
  unfold UpdateNote_update_c, load, bind, modify, lift, ret.
  cbn [files enter]. rewrite Hr, Hi, Hs, Hv. reflexivity.
Qed.

Lemma update_table_run c w df :
  Pd.read_csv (files w c) = Ok df ->
  Display_update_table c w
  = (Ok tt, set_table c (Pd.grid df)
              (set_frame c df (set_table c [] (enter (Update_table c) w)))).
Proof.
  intros Hr. unfold Display_update_table, load, bind, modify, lift, ret.
  cbn [files enter set_table]. rewrite Hr. reflexivity.
Qed.

Lemma eq_str_parse s p :
  Pd.eq_str (Pd.parse_field s) p = true -> s = p.
Proof.
  unfold Pd.parse_field. destruct (String.eqb s ""); simpl; [discriminate|].
  apply String.eqb_eq.
Qed.

Lemma nth_0_parse (l : list string) :
  nth 0 (map Pd.parse_field l) Pd.NaN = Pd.parse_field (nth 0 l "").
Proof. destruct l; reflexivity. Qed.

Section FirstRecord.

Variables (c : Category) (w : World).
Variables (p fn ln a e t n : string) (rest : list (list string)).
Hypothesis Hfile :
  files w c = Pd.Csv HEADER ([p; fn; ln; a; e; t; n] :: rest).
Hypothesis Hrest : Forall (fun l : list string => length l = 7) rest.
Hypothesis Hp : String.length p = 11.

(** The frame read and the items of the two boxes. *)
Lemma first_record_items :
  exists cells rows s items,
    Pd.read_csv (files w c)
      = Ok (Pd.mkDF HEADER ((0, Pd.Str p :: cells) :: rows)) /\
    rows = Pd.enumerate 1 (map (map Pd.parse_field) rest) /\
    cells = map Pd.parse_field [fn; ln; a; e; t; n] /\
    Pd.item_texts ((0, Pd.Str p :: cells) :: rows)
      = Ok ((p ++ s)%string :: items).
Proof.
  rewrite Hfile. cbn [Pd.read_csv map Pd.enumerate].
  rewrite (@parse_field_Str p (@length_nonempty p 10 Hp)).
  destruct (@item_texts_total (Pd.enumerate 1 (map (map Pd.parse_field) rest)))
    as (items & Hi).
  { apply Forall_enumerate with (P := fun l : list Pd.cell => 3 <= length l).
    rewrite Forall_map. eapply Forall_impl; [|exact Hrest].
    intros l Hl. rewrite length_map. simpl in Hl. lia. }
  eexists. eexists. eexists. exists items.
  split; [reflexivity|]. split; [reflexivity|]. split; [reflexivity|].
  cbn [Pd.item_texts Pd.item_text snd map Pd.str]. rewrite Hi. reflexivity.
Qed.


(** X23: the fan-out of a save stops at the note view when another record has
    the personal number of the first record: [.item()] finds two rows and
    raises [ValueError], and the grid is not refreshed. *)
Theorem duplicate_of_first_record_stops_notification (l : list string) :
  In l rest -> nth 0 l ""%string = p ->
  fst (Data_notify_observer c w) = Raise ValueError /\
  calls (snd (Data_notify_observer c w))
    = calls w ++ [Update_d c; Update_c c] /\
  table (snd (Data_notify_observer c w)) = table w.
Proof.
  intros Hin Hl.
  destruct first_record_items as (cells & rows & s & items & Hr & -> & -> & Hi).
  set (row0 := (0, Pd.Str p :: map Pd.parse_field [fn; ln; a; e; t; n])) in *.
  set (rows := Pd.enumerate 1 (map (map Pd.parse_field) rest)) in *.
  assert (Hmore : exists r1 more,
             filter (fun r => Pd.eq_str (nth 0 (snd r) Pd.NaN) p) rows
             = r1 :: more).
  { assert (Hex : exists k, In (k, map Pd.parse_field l) rows).
    { unfold rows. generalize 1. revert Hin. clear.
      induction rest as [|x xs IH]; intros Hin k; [contradiction|].
      destruct Hin as [-> | Hin].
      - exists k. left. reflexivity.
      - destruct (IH Hin (S k)) as (k' & Hk'). exists k'. right. exact Hk'. }
    destruct Hex as (k & Hk).
    assert (Hf : In (k, map Pd.parse_field l)
                    (filter (fun r => Pd.eq_str (nth 0 (snd r) Pd.NaN) p) rows)).
    { apply filter_In. split; [exact Hk|]. cbn [snd].
      rewrite nth_0_parse, Hl.
      rewrite (@parse_field_Str p (@length_nonempty p 10 Hp)).
      apply String.eqb_refl. }
    destruct (filter _ rows) as [|r1 more]; [contradiction|]. eauto. }
  destruct Hmore as (r1 & more & Hmore).
  eassert (Hrun : Data_notify_observer c w = (Raise ValueError, _)).
  { unfold Data_notify_observer.
    rewrite (@bind_Ok _ _ _ _ w _ _ (@update_d_run c w _ _ Hr Hi)).
    match goal with
    | |- context [bind (UpdateNote_update_c c) _ ?w1] =>
        rewrite (@bind_Raise _ _ _ _ w1 _ _
                   (@update_c_raises c w1 _ _ (row0 :: r1 :: more) ValueError
                      Hr Hi
                      ltac:(cbn [hd]; rewrite <- Hp, slice0_append;
                            unfold Pd.select_eq; cbn [Pd.columns Pd.body];
                            change (Pd.col_pos "Personnummer" HEADER)
                              with (Some 0);
                            unfold row0 at 1;
                            cbn [filter snd nth Pd.eq_str];
                            rewrite String.eqb_refl, Hmore; reflexivity)
                      ltac:(reflexivity)))
    end.
    reflexivity. }
  rewrite Hrun.
  cbn [fst snd calls table set_frame set_patient_d set_patient_c enter].
  rewrite <- app_assoc. auto.
Qed.

End FirstRecord.


Lemma duplicate_of_first_record_stops_notification_witness :
  fst (Data_notify_observer SAMSA world_duplicate) = Raise ValueError /\
  calls (snd (Data_notify_observer SAMSA world_duplicate))
    = calls world_duplicate ++ [Update_d SAMSA; Update_c SAMSA] /\
  table (snd (Data_notify_observer SAMSA world_duplicate))
    = table world_duplicate.
Proof.
  apply (@duplicate_of_first_record_stops_notification SAMSA world_duplicate
           "010101-1234" "Anna" "-" "Centrum" "Ja" "SAMSA" "-"
           [example_line "010101-1234" "Anna"]
           eq_refl ltac:(repeat constructor) eq_refl
           (example_line "010101-1234" "Anna")).
  - left. reflexivity.
  - reflexivity.
Defined.

(** ** Start-up establishes the invariants *)

(** X24: start-up on readable files leaves the state that the invariants of the
    operations start from: every file and every frame has the seven
    columns, and every frame is in step with its file. *)
Theorem start_up_establishes_the_invariants
  (disk : Category -> option Pd.File) :
  (forall c f, disk c = Some f -> f <> Pd.EmptyFile /\ seven_columns f) ->
  wf_world (snd (Window_init disk)) /\ all_in_step (snd (Window_init disk)).
Proof.
  intros H.
  assert (Hshape : forall c, seven_columns (Window_create_files disk c)).
  { intros c. apply (@create_file_readable (disk c) (H c)). }
  assert (Hread : forall c, exists df items,
             Pd.read_csv (Window_create_files disk c) = Ok df /\
             Pd.item_texts (Pd.body df) = Ok items).
  { intros c. destruct (@create_file_readable (disk c) (H c)) as [Hne Hs].
    apply seven_columns_readable; assumption. }
  destruct (Hread SAMSA) as (dS & iS & HrS & HiS).
  destruct (Hread TES) as (dT & iT & HrT & HiT).
  destruct (Hread KORTTID) as (dK & iK & HrK & HiK).
  rewrite (@Window_init_readable disk _ _ _ _ _ _ HrS HrT HrK HiS HiT HiK).
  match goal with
  | |- context [UpdateNote_set_default_values ?w2] =>
      pose proof (set_default_values_notes_only w2) as (Hc & _);
      destruct (UpdateNote_set_default_values w2) as [r w3]
  end.
  cbn [snd] in *. rewrite Display_init_run. cbn [snd].
  assert (Hstate : forall c,
             files w3 c = Window_create_files disk c /\
             Pd.read_csv (Window_create_files disk c) = Ok (frames w3 c)).
  { intros c. destruct (Hc c) as (H1 & H2 & _). rewrite H1, H2.
    split; [reflexivity|].
    destruct c; cbn; unfold upd; cbn [Category_eqb]; assumption. }
  split.
  - intros c. destruct (Hstate c) as [Hf Hr].
    cbn [files frames set_table]. rewrite Hf. split; [apply Hshape|].
    apply (@read_csv_wf _ _ (Hshape c) Hr).
  - intros c df. destruct (Hstate c) as [Hf Hr].
    cbn [files frames set_table]. rewrite Hf, Hr. now intros [= <-].
Qed.

Lemma start_up_establishes_the_invariants_witness :
  wf_world (snd (Window_init disk_three)) /\
  all_in_step (snd (Window_init disk_three)).
Proof.
  apply (@start_up_establishes_the_invariants disk_three).
  intros c f [= <-].
  split; [discriminate | split; [reflexivity | repeat constructor]].
Defined.
